(** * Kindle-Dash builder: a shallow embedding of [builder.py]

    The build script gathers papers, repositories, quotes, lyrics and
    vocabulary and renders them into two pages.  This development embeds
    the text utilities ([add_ipa_to_word], [add_ipa_to_text],
    [translate_text], [detect_language]) and the six fetchers and loaders,
    and proves how they behave on every input and on every behaviour of
    the services and files they depend on.

    Conventions.
    - A Python [str] is the list of its code points.
    - A value loaded from JSON is a [pyval].
    - Code that talks to the outside lives in a state-and-exception monad
      [M S A]: the state holds the observable world (texts submitted to the
      translation service, lines printed) and, for the fetchers, the local
      list that the [try] block fills, since Python keeps what was appended
      before an exception.
    - Libraries and files the script does not define ([eng_to_ipa],
      [deep_translator], [arxiv], [requests], the data files) are fields of
      an environment record [env]; every theorem quantifies over it. *)

From Stdlib Require Import String Ascii.
From Stdlib Require Import List ZArith NArith QArith Lia Bool.
Import ListNotations.
Close Scope Q_scope.

Set Implicit Arguments.

(** ** Strings *)

Definition char := N.
Definition str := list char.

(** An ASCII literal of the source. *)
Definition lit (s : string) : str := map N_of_ascii (list_ascii_of_string s).

(** [len(x)] *)
Definition len {A : Type} (l : list A) : Z := Z.of_nat (length l).

(** Truth value of a string or list: non-empty. *)
Definition truthy {A : Type} (l : list A) : bool :=
  match l with [] => false | _ :: _ => true end.

Fixpoint str_eqb (a b : str) : bool :=
  match a, b with
  | [], [] => true
  | x :: a', y :: b' => N.eqb x y && str_eqb a' b'
  | _, _ => false
  end.

(** [sep.join(parts)] *)
Fixpoint join (sep : str) (parts : list str) : str :=
  match parts with
  | [] => []
  | p :: rest =>
      match rest with
      | [] => p
      | _ :: _ => p ++ sep ++ join sep rest
      end
  end.

(** [s.startswith(p)] *)
Fixpoint starts_with (p s : str) : bool :=
  match p, s with
  | [], _ => true
  | x :: p', y :: s' => N.eqb x y && starts_with p' s'
  | _ :: _, [] => false
  end.

(** [s.replace(old, new)] for a non-empty [old]: occurrences are replaced
    from left to right without overlap.  [skip] counts the characters of a
    matched occurrence that remain to be passed over. *)
Fixpoint replace_from (old new : str) (skip : nat) (s : str) : str :=
  match s with
  | [] => []
  | c :: rest =>
      match skip with
      | S k => replace_from old new k rest
      | O =>
          if starts_with old s
          then new ++ replace_from old new (length old - 1) rest
          else c :: replace_from old new 0 rest
      end
  end.

Definition replace (old new s : str) : str := replace_from old new 0 s.

(** Putting a character in front of the first piece. *)
Definition push_front (c : char) (pieces : list str) : list str :=
  match pieces with
  | u :: us => (c :: u) :: us
  | [] => [[c]]
  end.

(** [s.split(sep)] for a one-character separator, the only form the
    script uses with an argument. *)
Fixpoint split_char (sep : char) (s : str) : list str :=
  match s with
  | [] => [[]]
  | c :: rest =>
      if N.eqb c sep then [] :: split_char sep rest
      else push_front c (split_char sep rest)
  end.

(** [str.isspace] on one character, as CPython's [_PyUnicode_IsWhitespace]. *)
Definition py_isspace (c : char) : bool :=
  ((9 <=? c) && (c <=? 13) || (28 <=? c) && (c <=? 32)
   || (c =? 133) || (c =? 160) || (c =? 5760)
   || (8192 <=? c) && (c <=? 8202)
   || (c =? 8232) || (c =? 8233) || (c =? 8239) || (c =? 8287)
   || (c =? 12288))%N.

Fixpoint lstrip (s : str) : str :=
  match s with
  | [] => []
  | c :: rest => if py_isspace c then lstrip rest else s
  end.

(** [s.strip()] *)
Definition strip (s : str) : str := rev (lstrip (rev (lstrip s))).

(** [s.split()]: the maximal runs of non-whitespace characters.  [cur] is
    the run being read. *)
Fixpoint split_ws_from (cur : str) (s : str) : list str :=
  match s with
  | [] => if truthy cur then [cur] else []
  | c :: rest =>
      if py_isspace c
      then (if truthy cur then [cur] else []) ++ split_ws_from [] rest
      else split_ws_from (cur ++ [c]) rest
  end.

Definition split_ws (s : str) : list str := split_ws_from [] s.

Definition is_ascii_alpha (c : char) : bool :=
  ((65 <=? c) && (c <=? 90) || (97 <=? c) && (c <=? 122))%N.

(** [re.sub(r'[^a-zA-Z]', '', s)] *)
Definition sub_non_alpha (s : str) : str := filter is_ascii_alpha s.

(** [s.lower()]; the script applies it to ASCII letters only, where
    lowering is adding 32 to an upper-case code. *)
Definition lower (s : str) : str :=
  map (fun c => if ((65 <=? c) && (c <=? 90))%N then (c + 32)%N else c) s.

(** ** Exceptions and outcomes *)

(** Instances of Python's [Exception] class, which is what every handler
    of the script names.  [Timeout] and [RequestException] are the two
    classes of [requests.exceptions] that [fetch_github_trending] tells
    apart ([Timeout] is the subclass); [JSONDecodeError] is the one the
    loaders tell apart. *)
Inductive exn : Type :=
| Timeout
| RequestException (detail : str)
| JSONDecodeError (detail : str)
| KeyError (key : str)
| TypeError
| AttributeError
| OtherException (detail : str).

Inductive outcome (A : Type) : Type :=
| Ret (a : A)
| Raise (e : exn).

Arguments Ret {A} a.
Arguments Raise {A} e.

(** ** The state-and-exception monad *)

Definition M (S A : Type) : Type := S -> outcome A * S.

Definition ret {S A : Type} (a : A) : M S A := fun s => (Ret a, s).

Definition raise {S A : Type} (e : exn) : M S A := fun s => (Raise e, s).

Definition bind {S A B : Type} (m : M S A) (k : A -> M S B) : M S B :=
  fun s =>
    match m s with
    | (Ret a, s') => k a s'
    | (Raise e, s') => (Raise e, s')
    end.

(** [try: body  except Exception as e: handler] *)
Definition try_except {S A : Type} (body : M S A) (handler : exn -> M S A)
  : M S A :=
  fun s =>
    match body s with
    | (Ret a, s') => (Ret a, s')
    | (Raise e, s') => handler e s'
    end.

(** The result of a call into a library. *)
Definition lift {S A : Type} (o : outcome A) : M S A := fun s => (o, s).

Declare Scope monad_scope.
Delimit Scope monad_scope with monad.
Notation "x <- c1 ;; c2" := (bind c1 (fun x => c2))
  (at level 61, c1 at next level, right associativity) : monad_scope.
Notation "' pat <- c1 ;; c2" := (bind c1 (fun x => match x with pat => c2 end))
  (at level 61, pat pattern, c1 at next level, right associativity)
  : monad_scope.
Notation "c1 ;; c2" := (bind c1 (fun _ => c2))
  (at level 61, right associativity) : monad_scope.
Local Open Scope monad_scope.

(** ** The observable world *)

(** One constructor per [print] of the modelled functions; the argument is
    what the format string interpolates. *)
Inductive message : Type :=
| MsgTranslateFailed (e : exn)          (* [警告] 翻译失败: {e} *)
| MsgArxivFetching (max_results : Z)    (* [Module A] 正在从 ArXiv 获取 … *)
| MsgArxivDone (n : Z)                  (* [Module A] 成功获取 {n} 篇论文 *)
| MsgArxivFailed (e : exn)              (* [Module A] ArXiv 请求失败: {e} *)
| MsgGithubSearching (days : Z)         (* [Module B] 正在搜索 GitHub … *)
| MsgGithubDone (n : Z)                 (* [Module B] 成功获取 {n} 个仓库 *)
| MsgGithubTimeout                      (* [Module B] GitHub 请求超时 *)
| MsgGithubRequestFailed (e : exn)      (* [Module B] GitHub 请求失败: {e} *)
| MsgGithubDataFailed (e : exn)         (* [Module B] 处理 GitHub 数据失败: {e} *)
| MsgModelsLoaded (n : Z)               (* [Module C] 成功加载 {n} 个思维模型 *)
| MsgModelsMissing                      (* [Module C] 思维模型文件不存在 *)
| MsgModelsJsonFailed (e : exn)         (* [Module C] JSON 解析失败: {e} *)
| MsgModelsFailed (e : exn)             (* [Module C] 加载思维模型失败: {e} *)
| MsgQuotesLoaded (n : Z)               (* [Module D] 成功加载 {n} 条语录 *)
| MsgQuotesMissing                      (* [Module D] 语录文件不存在 *)
| MsgQuotesJsonFailed (e : exn)         (* [Module D] JSON 解析失败: {e} *)
| MsgQuotesFailed (e : exn)             (* [Module D] 加载语录失败: {e} *)
| MsgLyricsLoaded (n : Z)               (* [Module E] 成功加载 {n} 首歌词 *)
| MsgLyricsMissing                      (* [Module E] 歌词目录不存在 *)
| MsgLyricsFailed (e : exn)             (* [Module E] 加载歌词失败: {e} *)
| MsgWordsLoaded (n : Z)                (* [Module F] 成功加载 {n} 个单词 *)
| MsgWordsMissing                       (* [Module F] 单词文件不存在 *)
| MsgWordsJsonFailed (e : exn)          (* [Module F] JSON 解析失败: {e} *)
| MsgWordsFailed (e : exn).             (* [Module F] 加载单词失败: {e} *)

(** [calls]: the texts submitted to [translator.translate], oldest first.
    [stdout]: the lines printed, oldest first. *)
Record world : Type := World {
  calls : list str;
  stdout : list message
}.

(** The world after a line is printed. *)
Definition printed (m : message) (w : world) : world :=
  World (calls w) (stdout w ++ [m]).

(** [print(...)] *)
Definition print (m : message) : M world unit :=
  fun w => (Ret tt, printed m w).

(** ** Values loaded from JSON *)

(** What [json.load] and [response.json()] return.  Objects keep their
    pairs in a list; a lookup takes the first pair with the key.  JSON
    numbers with a fraction are left out: the script computes with no
    number it loads. *)
#[warnings="-register-all"] Inductive pyval : Type :=
| PNone
| PBool (b : bool)
| PInt (z : Z)
| PStr (s : str)
| PList (items : list pyval)
| PDict (pairs : list (str * pyval)).

Fixpoint lookup (key : str) (pairs : list (str * pyval)) : option pyval :=
  match pairs with
  | [] => None
  | (k, v) :: rest => if str_eqb k key then Some v else lookup key rest
  end.

(** [bool(v)] *)
Definition py_truthy (v : pyval) : bool :=
  match v with
  | PNone => false
  | PBool b => b
  | PInt z => negb (z =? 0)%Z
  | PStr s => truthy s
  | PList l => truthy l
  | PDict d => truthy d
  end.

(** [v.get(key, default)]: only a dict has the method. *)
Definition py_get (v : pyval) (key : str) (default : pyval) : outcome pyval :=
  match v with
  | PDict d => Ret (match lookup key d with Some x => x | None => default end)
  | _ => Raise AttributeError
  end.

(** [d[key]] on a dict. *)
Definition py_item (v : pyval) (key : str) : outcome pyval :=
  match v with
  | PDict d => match lookup key d with Some x => Ret x | None => Raise (KeyError key) end
  | _ => Raise TypeError
  end.

(** [l[:n]] on a Python sequence held as a list. *)
Definition slice_to {A : Type} (n : Z) (l : list A) : list A :=
  if (0 <=? n)%Z then firstn (Z.to_nat n) l
  else firstn (Z.to_nat (len l + n)) l.

(** [v[:n]]: lists and strings can be sliced; a dict has no slice key
    (Python 3.12 hashes the slice and finds no entry). *)
Definition py_slice_to (n : Z) (v : pyval) : outcome pyval :=
  match v with
  | PList l => Ret (PList (slice_to n l))
  | PStr s => Ret (PStr (slice_to n s))
  | PDict _ => Raise (KeyError (lit "slice(None, n, None)"))
  | _ => Raise TypeError
  end.

(** [for x in v]: the elements of a list, the keys of a dict, the
    characters of a string. *)
Definition py_iter (v : pyval) : outcome (list pyval) :=
  match v with
  | PList l => Ret l
  | PDict d => Ret (map (fun kv => PStr (fst kv)) d)
  | PStr s => Ret (map (fun c => PStr [c]) s)
  | _ => Raise TypeError
  end.

(** [len(v)] *)
Definition py_len (v : pyval) : outcome Z :=
  match v with
  | PList l => Ret (len l)
  | PDict d => Ret (len d)
  | PStr s => Ret (len s)
  | _ => Raise TypeError
  end.

(** [v == s] for a string literal [s]. *)
Definition py_eq_str (v : pyval) (s : str) : bool :=
  match v with
  | PStr t => str_eqb t s
  | _ => false
  end.

(** ** Binary64 quotients *)

(** [detect_language] divides two integers and compares the quotient with
    the literal [0.3]; both are binary64 numbers.  A non-negative finite
    binary64 number is held as [mant * 2 ^ expo].  The model covers
    quotients in the normal range, which those of two lengths are. *)
Record b64 : Type := B64 { mant : Z; expo : Z }.

Definition pow2 (k : Z) : Z := (2 ^ Z.max 0 k)%Z.

(** [n / d] rounded to the nearest integer, ties to even ([d > 0]). *)
Definition div_rne (n d : Z) : Z :=
  let q := (n / d)%Z in
  let r := (n mod d)%Z in
  if (2 * r <? d)%Z then q
  else if (d <? 2 * r)%Z then (q + 1)%Z
  else if Z.even q then q else (q + 1)%Z.

(** The [e] with [2^e <= a/b < 2^(e+1)], for positive [a] and [b]. *)
Definition binade (a b : Z) : Z :=
  let d := (Z.log2 a - Z.log2 b)%Z in
  if (b * pow2 d <=? a * pow2 (- d))%Z then d else (d - 1)%Z.

(** [a / b] on Python integers [a >= 0] and [b > 0]: the quotient rounded
    to 53 significant bits, ties to even. *)
Definition b64_div (a b : Z) : b64 :=
  if (a =? 0)%Z then B64 0 0
  else
    let e := binade a b in
    B64 (div_rne (a * pow2 (52 - e)) (b * pow2 (e - 52))) (e - 52).

(** [x < y] *)
Definition b64_ltb (x y : b64) : bool :=
  let m := Z.min (expo x) (expo y) in
  (mant x * 2 ^ (expo x - m) <? mant y * 2 ^ (expo y - m))%Z.

(** The literal [0.3]: the binary64 number nearest to 3/10. *)
Definition float_0_3 : b64 := b64_div 3 10.

(** ** Language detection *)

(** The class [\u4e00-\u9fff] of the regular expression. *)
Definition is_cjk (c : char) : bool := ((19968 <=? c) && (c <=? 40959))%N.

(** [detect_language] *)
Definition detect_language (text : str) : str :=
  let chinese_chars := len (filter is_cjk text) in
  let total_chars := len (replace (lit " ") [] text) in
  if (total_chars =? 0)%Z then lit "en"
  else if b64_ltb float_0_3 (b64_div chinese_chars total_chars)
       then lit "zh"
       else lit "en".

(** ** The units and chunks of a long text *)

(** A text is blank when it has only whitespace, or nothing. *)
Definition blank (text : str) : bool := forallb py_isspace text.

(** The units [translate_text] cuts a long text into. *)
Definition sentences (text : str) : list str :=
  split_char 124%N (replace (lit ". ") (lit ".|") text).

(** The chunks the loop of [translate_text] forms from the units, with
    the service calls left out: [cur] is [current_chunk]. *)
Fixpoint chunks_from (cur : str) (units : list str) : list str :=
  match units with
  | [] => if truthy cur then [cur] else []
  | u :: rest =>
      if (len cur + len u <? 4500)%Z
      then chunks_from (cur ++ u) rest
      else (if truthy cur then [cur] else []) ++ chunks_from u rest
  end.

Definition chunks (units : list str) : list str := chunks_from [] units.

(** The texts [translate_text] means to submit for a non-blank text. *)
Definition planned_calls (text : str) : list str :=
  if (4500 <? len text)%Z then chunks (sentences text) else [text].

(** A chunk is under the limit unless it is one unit that is not. *)
Definition sized (units : list str) (c : str) : Prop :=
  (len c < 4500)%Z \/ (In c units /\ (4500 <= len c)%Z).


(** ** The environment *)

(** An entry yielded by [arxiv.Client().results(search)].  [ar_published]
    is the text [result.published.strftime('%Y-%m-%d')] gives. *)
Record arxiv_result : Type := ArxivResult {
  ar_title : str;
  ar_summary : str;
  ar_authors : list str;
  ar_published : str;
  ar_entry_id : str;
  ar_categories : list str
}.

(** What [requests.get] returns, as far as the script uses it. *)
Record response : Type := Response {
  raise_for_status : outcome unit;
  json : outcome pyval
}.

Record env : Type := Env {
  (** [eng_to_ipa.convert(word)] *)
  ipa_convert : str -> outcome str;
  (** [GoogleTranslator(source=, target=)]: building the translator. *)
  google_translator : str -> str -> outcome unit;
  (** [translator.translate(text)] for the translator of a language pair,
      given the texts submitted so far in this run. *)
  google_translate : str -> str -> list str -> str -> outcome str;
  (** [arxiv.Client().results(arxiv.Search(query, max_results, ...))]: the
      entries the generator yields and, when it breaks off or cannot even
      be set up, the exception that ends it. *)
  arxiv_results : str -> Z -> list arxiv_result * option exn;
  (** [(datetime.now() - timedelta(days=days)).strftime('%Y-%m-%d')] *)
  since_date : Z -> outcome str;
  (** [requests.get] on the repository search, for the [q] and [per_page]
      parameters; the other parameters and the headers are constants. *)
  requests_get : str -> Z -> outcome response;
  (** [data/models.json], [data/quotes.json], [data/words.json]: [None]
      when the file does not exist, otherwise what opening it and
      [json.load] give. *)
  models_file : option (outcome pyval);
  quotes_file : option (outcome pyval);
  words_file : option (outcome pyval);
  (** [data/lyrics]: [None] when the directory does not exist, otherwise
      what [sorted(LYRICS_DIR.glob('*.txt'))] gives: each file's stem and
      what opening and reading it give. *)
  lyrics_dir : option (outcome (list (str * outcome str)))
}.

(** ** Module A helpers: phonetic annotation *)

Section Builder.

Variable E : env.

(** [add_ipa_to_word].  The [try] block either returns the annotated word
    ([Some]) or falls through to the final [return word] ([None]). *)
Definition add_ipa_to_word {S : Type} (word : str) : M S str :=
  let clean_word := sub_non_alpha word in
  if (len clean_word <=? 7)%Z then ret word
  else
    annotated <-
      try_except
        (phonetic <- lift (ipa_convert E (lower clean_word)) ;;
         if truthy phonetic && negb (str_eqb phonetic (lower clean_word))
         then ret (Some (word ++ lit "<sup class='ipa'>/" ++ phonetic
                              ++ lit "/</sup>"))
         else ret None)
        (fun _ => ret None) ;;
    match annotated with
    | Some s => ret s
    | None => ret word
    end.

(** [[f(x) for x in l]] *)
Fixpoint map_m {S A B : Type} (f : A -> M S B) (l : list A) : M S (list B) :=
  match l with
  | [] => ret []
  | x :: rest => y <- f x ;; ys <- map_m f rest ;; ret (y :: ys)
  end.

(** [add_ipa_to_text] *)
Definition add_ipa_to_text {S : Type} (text : str) : M S str :=
  words <- map_m add_ipa_to_word (split_ws text) ;;
  ret (join (lit " ") words).

(** ** The chunked translator *)

(** [translator.translate(text)]: the text is submitted, and the service
    answers or raises. *)
Definition translate (source target text : str) : M world str :=
  fun w =>
    (google_translate E source target (calls w) text,
     World (calls w ++ [text]) (stdout w)).

(** The [for sentence in sentences] loop of [translate_text], with its two
    local variables passed along. *)
Fixpoint chunk_loop (source target : str) (sentences : list str)
    (translated_parts : list str) (current_chunk : str)
  : M world (list str * str) :=
  match sentences with
  | [] => ret (translated_parts, current_chunk)
  | sentence :: rest =>
      if (len current_chunk + len sentence <? 4500)%Z
      then chunk_loop source target rest translated_parts
                      (current_chunk ++ sentence)
      else
        parts <-
          (if truthy current_chunk
           then t <- translate source target current_chunk ;;
                ret (translated_parts ++ [t])
           else ret translated_parts) ;;
        chunk_loop source target rest parts sentence
  end.

(** [translate_text] *)
Definition translate_text (text source target : str) : M world str :=
  if negb (truthy text) || negb (truthy (strip text)) then ret []
  else
    try_except
      (_ <- lift (google_translator E source target) ;;
       if (4500 <? len text)%Z
       then
         let sentences :=
           split_char 124%N (replace (lit ". ") (lit ".|") text) in
         '(translated_parts, current_chunk) <-
            chunk_loop source target sentences [] [] ;;
         parts <-
           (if truthy current_chunk
            then t <- translate source target current_chunk ;;
                 ret (translated_parts ++ [t])
            else ret translated_parts) ;;
         ret (join (lit " ") parts)
       else translate source target text)
      (fun e => print (MsgTranslateFailed e) ;; ret []).

(** The call with the default language pair, [source='en'] and
    [target='zh-CN']. *)
Definition translate_text_default (text : str) : M world str :=
  translate_text text (lit "en") (lit "zh-CN").

(** Submitting texts one after the other, stopping at the first failure:
    what the loop of [translate_text] amounts to once the chunks are
    known. *)
Fixpoint translate_all (source target : str) (texts : list str)
  : M world (list str) :=
  match texts with
  | [] => ret []
  | c :: rest =>
      t <- translate source target c ;;
      ts <- translate_all source target rest ;;
      ret (t :: ts)
  end.

(** ** Local variables that outlive an exception *)

(** The fetchers fill a local list inside [try] and return it after the
    handler; the state is the pair of that local and the world. *)
Definition zoom {L A : Type} (m : M world A) : M (L * world) A :=
  fun s => let (r, w') := m (snd s) in (r, (fst s, w')).

Definition get_local {L : Type} : M (L * world) L :=
  fun s => (Ret (fst s), s).

Definition set_local {L : Type} (x : L) : M (L * world) unit :=
  fun s => (Ret tt, (x, snd s)).

(** [l.append(x)] on the local list. *)
Definition append {R : Type} (x : R) : M (list R * world) unit :=
  fun s => (Ret tt, (fst s ++ [x], snd s)).

Definition with_local {L A : Type} (init : L) (m : M (L * world) A)
  : M world A :=
  fun w => let (r, s) := m (init, w) in (r, snd s).

(** [for x in l: body] *)
Fixpoint for_each {S A : Type} (l : list A) (body : A -> M S unit)
  : M S unit :=
  match l with
  | [] => ret tt
  | x :: rest => body x ;; for_each rest body
  end.

(** The records a loop [for x in items: ... l.append(record)] completes:
    those of the items up to the first whose processing raises, and that
    exception if there is one. *)
Fixpoint collect {A R : Type} (f : A -> M world R) (items : list A)
  : world -> (list R * option exn) * world :=
  fun w =>
    match items with
    | [] => (([], None), w)
    | x :: rest =>
        match f x w with
        | (Ret r, w1) =>
            let '((rs, err), w2) := collect f rest w1 in ((r :: rs, err), w2)
        | (Raise e, w1) => (([], Some e), w1)
        end
    end.

Definition completed {A R : Type} (f : A -> M world R) (items : list A)
    (w : world) : list R :=
  fst (fst (collect f items w)).

(** [translate_text] applied to a value of any type: [not text] is decided
    by truth value, and [text.strip()] exists on strings only. *)
Definition translate_text_value (v : pyval) : M world str :=
  match v with
  | PStr s => translate_text_default s
  | _ => if py_truthy v then raise AttributeError else ret []
  end.

(** [detect_language] applied to a value of any type: [re.findall] wants
    a string. *)
Definition detect_language_value (v : pyval) : outcome str :=
  match v with
  | PStr s => Ret (detect_language s)
  | _ => Raise TypeError
  end.

(** ** Module A: papers *)

Record paper : Type := Paper {
  paper_title_en : str;
  paper_title_with_ipa : str;
  paper_abstract_en : str;
  paper_abstract_zh : str;
  paper_authors : list str;
  paper_published : str;
  paper_url : str;
  paper_categories : list str
}.

(** The body of the loop over the results, up to the [append]. *)
Definition paper_of (result : arxiv_result) : M world paper :=
  let title_en := ar_title result in
  let abstract_en := replace [10%N] (lit " ") (ar_summary result) in
  title_with_ipa <- add_ipa_to_text title_en ;;
  abstract_zh <- translate_text_default abstract_en ;;
  ret (Paper title_en title_with_ipa abstract_en abstract_zh
             (slice_to 3 (ar_authors result))
             (ar_published result) (ar_entry_id result)
             (ar_categories result)).

(** The query [fetch_arxiv_papers] sends for its categories. *)
Definition arxiv_query (categories : option (list str)) : str :=
  join (lit " OR ")
       (map (fun cat => lit "cat:" ++ cat)
            match categories with
            | None => [lit "cs.AI"; lit "cs.CL"]
            | Some c => c
            end).

(** [fetch_arxiv_papers]; [None] is the default [categories=None]. *)
Definition fetch_arxiv_papers (categories : option (list str))
    (max_results : Z) : M world (list paper) :=
  let query := arxiv_query categories in
  with_local []
    (try_except
       (zoom (print (MsgArxivFetching max_results)) ;;
        let (results, broken) := arxiv_results E query max_results in
        for_each results
          (fun result => p <- zoom (paper_of result) ;; append p) ;;
        match broken with
        | Some e => raise e
        | None => ret tt
        end ;;
        papers <- get_local ;;
        zoom (print (MsgArxivDone (len papers))))
       (fun e => zoom (print (MsgArxivFailed e))) ;;
     get_local).

(** ** Module B: trending repositories *)

Record repo : Type := Repo {
  repo_name : pyval;
  repo_stars : pyval;
  repo_description_en : pyval;
  repo_description_zh : str;
  repo_url : pyval;
  repo_language : pyval;
  repo_created_at : pyval
}.

(** The body of the loop over the items, up to the [append]. *)
Definition repo_of (item : pyval) : M world repo :=
  d <- lift (py_get item (lit "description") (PStr [])) ;;
  let description_en := if py_truthy d then d else PStr [] in
  description_zh <-
    (if py_truthy description_en
     then translate_text_value description_en
     else ret []) ;;
  name <- lift (py_item item (lit "full_name")) ;;
  stars <- lift (py_item item (lit "stargazers_count")) ;;
  url <- lift (py_item item (lit "html_url")) ;;
  language <- lift (py_get item (lit "language") (PStr (lit "Unknown"))) ;;
  created <- lift (py_item item (lit "created_at")) ;;
  created_at <- lift (py_slice_to 10 created) ;;
  ret (Repo name stars description_en description_zh url language
            created_at).

(** [fetch_github_trending] *)
Definition fetch_github_trending (days : Z) (topic : str) (max_results : Z)
  : M world (list repo) :=
  with_local []
    (try_except
       (since <- lift (since_date E days) ;;
        let q := lit "topic:" ++ topic ++ lit " created:>" ++ since in
        zoom (print (MsgGithubSearching days)) ;;
        resp <- lift (requests_get E q max_results) ;;
        lift (raise_for_status resp) ;;
        data <- lift (json resp) ;;
        items <- lift (py_get data (lit "items") (PList [])) ;;
        items <- lift (py_slice_to max_results items) ;;
        items <- lift (py_iter items) ;;
        for_each items (fun item => r <- zoom (repo_of item) ;; append r) ;;
        repos <- get_local ;;
        zoom (print (MsgGithubDone (len repos))))
       (fun e =>
          match e with
          | Timeout => zoom (print MsgGithubTimeout)
          | RequestException _ => zoom (print (MsgGithubRequestFailed e))
          | _ => zoom (print (MsgGithubDataFailed e))
          end) ;;
     get_local).

(** The items the loop of [fetch_github_trending] runs over, when every
    step before the loop succeeds. *)
Definition github_items (days : Z) (topic : str) (max_results : Z)
  : outcome (list pyval) :=
  match since_date E days with
  | Raise e => Raise e
  | Ret since =>
      let q := lit "topic:" ++ topic ++ lit " created:>" ++ since in
      match requests_get E q max_results with
      | Raise e => Raise e
      | Ret resp =>
          match raise_for_status resp with
          | Raise e => Raise e
          | Ret _ =>
              match json resp with
              | Raise e => Raise e
              | Ret data =>
                  match py_get data (lit "items") (PList []) with
                  | Raise e => Raise e
                  | Ret items =>
                      match py_slice_to max_results items with
                      | Raise e => Raise e
                      | Ret items => py_iter items
                      end
                  end
              end
          end
      end
  end.

(** ** Module C: mental models *)

(** [load_mental_models] *)
Definition load_mental_models : M world pyval :=
  with_local (PList [])
    (try_except
       match models_file E with
       | Some file =>
           models <- lift file ;;
           set_local models ;;
           n <- lift (py_len models) ;;
           zoom (print (MsgModelsLoaded n))
       | None => zoom (print MsgModelsMissing)
       end
       (fun e =>
          match e with
          | JSONDecodeError _ => zoom (print (MsgModelsJsonFailed e))
          | _ => zoom (print (MsgModelsFailed e))
          end) ;;
     get_local).

(** ** Module D: quotes *)

Record quote : Type := Quote {
  quote_content : pyval;
  quote_author : pyval;
  quote_language : pyval;
  quote_translation : str
}.

(** The body of the loop over the raw quotes, up to the [append].  The
    default of [quote.get('language', ...)] is computed before the
    lookup. *)
Definition quote_of (raw : pyval) : M world quote :=
  content <- lift (py_get raw (lit "content") (PStr [])) ;;
  detected <- lift (detect_language_value content) ;;
  language <- lift (py_get raw (lit "language") (PStr detected)) ;;
  translation <-
    (if py_eq_str language (lit "en")
     then translate_text_value content
     else ret []) ;;
  author <- lift (py_get raw (lit "author") (PStr [20314%N; 21517%N])) ;;
  ret (Quote content author language translation).

(** [load_quotes] *)
Definition load_quotes : M world (list quote) :=
  with_local []
    (try_except
       match quotes_file E with
       | Some file =>
           raw_quotes <- lift file ;;
           items <- lift (py_iter raw_quotes) ;;
           for_each items (fun raw => q <- zoom (quote_of raw) ;; append q) ;;
           quotes <- get_local ;;
           zoom (print (MsgQuotesLoaded (len quotes)))
       | None => zoom (print MsgQuotesMissing)
       end
       (fun e =>
          match e with
          | JSONDecodeError _ => zoom (print (MsgQuotesJsonFailed e))
          | _ => zoom (print (MsgQuotesFailed e))
          end) ;;
     get_local).

(** ** Module E: lyrics *)

Record lyric : Type := Lyric {
  lyric_name : str;
  lyric_content : str;
  lyric_lines : list str
}.

(** The body of the loop over the files, up to the [append]. *)
Definition lyric_of (file : str * outcome str) : M world lyric :=
  content <- lift (snd file) ;;
  ret (Lyric (fst file) content (split_char 10%N content)).

(** [load_lyrics] *)
Definition load_lyrics : M world (list lyric) :=
  with_local []
    (try_except
       match lyrics_dir E with
       | Some listing =>
           txt_files <- lift listing ;;
           for_each txt_files
             (fun file => l <- zoom (lyric_of file) ;; append l) ;;
           lyrics <- get_local ;;
           zoom (print (MsgLyricsLoaded (len lyrics)))
       | None => zoom (print MsgLyricsMissing)
       end
       (fun e => zoom (print (MsgLyricsFailed e))) ;;
     get_local).

(** ** Module F: words *)

(** [load_words] *)
Definition load_words : M world pyval :=
  with_local (PList [])
    (try_except
       match words_file E with
       | Some file =>
           words <- lift file ;;
           set_local words ;;
           n <- lift (py_len words) ;;
           zoom (print (MsgWordsLoaded n))
       | None => zoom (print MsgWordsMissing)
       end
       (fun e =>
          match e with
          | JSONDecodeError _ => zoom (print (MsgWordsJsonFailed e))
          | _ => zoom (print (MsgWordsFailed e))
          end) ;;
     get_local).

End Builder.

(** What the handler of [translate_text] leaves behind. *)
Definition warned (e : exn) (w : world) : world :=
  printed (MsgTranslateFailed e) w.

(** The characters [text.replace(' ', '')] keeps. *)
Definition non_space (c : char) : bool := negb (N.eqb 32 c).

(** The annotation as the documentation writes it, with the attribute in
    double quotes (code point 34). *)
Definition documented_annotation (phonetic : str) : str :=
  lit "<sup class=" ++ [34%N] ++ lit "ipa" ++ [34%N] ++ lit ">/"
      ++ phonetic ++ lit "/</sup>".

(** ** Sample environments *)

(** The transcription [eng_to_ipa] gives for "algorithm"; a word it does
    not know comes back with an asterisk. *)
Definition ipa_algorithm : str :=
  [712; 230; 108; 103; 601; 114; 716; 618; 240; 601; 109]%N.

Definition sample_ipa (word : str) : outcome str :=
  if str_eqb word (lit "algorithm") then Ret ipa_algorithm
  else Ret (word ++ lit "*").

Definition sample_result : arxiv_result :=
  ArxivResult (lit "Reinforcement learning") (lit "We study agents.")
              [lit "A. Author"] (lit "2026-01-05")
              (lit "http://arxiv.org/abs/2601.00001v1") [lit "cs.AI"].

(** A repository as the search service describes it. *)
Definition sample_item (language : pyval) : pyval :=
  PDict [(lit "full_name", PStr (lit "octo/agent"));
         (lit "stargazers_count", PInt 120);
         (lit "description", PNone);
         (lit "html_url", PStr (lit "https://github.com/octo/agent"));
         (lit "language", language);
         (lit "created_at", PStr (lit "2026-01-02T03:04:05Z"))].


(** An environment where everything is in place: the translator answers
    as [respond] says and the repository search returns [items]. *)
Definition sample_env_with (respond : list str -> str -> outcome str)
    (items : list pyval) : env :=
  Env sample_ipa
      (fun _ _ => Ret tt)
      (fun _ _ => respond)
      (fun _ _ => ([sample_result], None))
      (fun _ => Ret (lit "2025-12-30"))
      (fun _ _ => Ret (Response (Ret tt)
                                (Ret (PDict [(lit "items", PList items)]))))
      (Some (Ret (PList [])))
      (Some (Ret (PList [])))
      (Some (Ret (PList [])))
      (Some (Ret [])).

(** The translator answers every text. *)
Definition sample_env : env :=
  sample_env_with (fun _ text => Ret (lit "zh:" ++ text))
                  [sample_item (PStr (lit "Python"))].

(** The translator answers the first text of a run and refuses the ones
    after it. *)
Definition refusing_env : env :=
  sample_env_with
    (fun submitted text =>
       match submitted with
       | [] => Ret (lit "zh:" ++ text)
       | _ :: _ => Raise (OtherException (lit "refused"))
       end)
    [sample_item (PStr (lit "Python"))].

(** The translator cannot be built: the language pair is not one the
    service knows. *)
Definition no_translator_env : env :=
  Env sample_ipa
      (fun _ _ =>
         Raise (OtherException (lit "LanguageNotSupportedException")))
      (fun _ _ _ text => Ret (lit "zh:" ++ text))
      (fun _ _ => ([sample_result], None))
      (fun _ => Ret (lit "2025-12-30"))
      (fun _ _ => Ret (Response (Ret tt) (Ret (PDict []))))
      (Some (Ret (PList [])))
      (Some (Ret (PList [])))
      (Some (Ret (PList [])))
      (Some (Ret [])).




(** The search returns a repository for which the service knows no
    primary language: GitHub sends ["language": null]. *)
Definition no_language_env : env :=
  sample_env_with (fun _ text => Ret (lit "zh:" ++ text))
                  [sample_item PNone].

Definition empty_world : world := World [] [].

(** 4501 characters, three units of 2, 2 and 4495 characters. *)
Definition one_chunk_text : str := lit "a. b. " ++ repeat 99%N 4495.

(** 6002 characters, two units of 3001 and 3000 characters. *)
Definition two_chunk_text : str :=
  repeat 97%N 3000 ++ lit ". " ++ repeat 98%N 3000.

(** 4510 characters, units "a.", "a." and one of 4504 characters that
    begins with "a.a.". *)
Definition echo_text : str := lit "a. a. a.a." ++ repeat 122%N 4500.

(** A token of [s.split()]: no whitespace in it. *)
Definition solid (t : str) : bool :=
  forallb (fun c => negb (py_isspace c)) t.

(** ** Rendering and the main function *)

(** The dict [main] builds and [render_templates] completes.  The three
    keys [render_templates] sets are absent ([None]) until then. *)
Record context : Type := Context {
  ctx_papers : list paper;
  ctx_repos : list repo;
  ctx_models : pyval;
  ctx_quotes : list quote;
  ctx_lyrics : list lyric;
  ctx_words : pyval;
  ctx_generated_at : option str;
  ctx_kindle_css : option str;
  ctx_web_css : option str
}.

(** The lines [render_templates] and [main] print. *)
Inductive site_message : Type :=
| MsgGenerated (file : str)           (* [生成] {output} *)
| MsgKindleFailed (e : exn)           (* [错误] 渲染 Kindle 模板失败: {e} *)
| MsgWebFailed (e : exn)              (* [错误] 渲染 Web 模板失败: {e} *)
| MsgDoubleRule                       (* "=" * 60 *)
| MsgSingleRule                       (* "-" * 60 *)
| MsgTitle                            (* Kindle-Dash 静态网站生成器 *)
| MsgEmptyLine                        (* print() *)
| MsgFinished                         (* 生成完成！ *)
| MsgKindleVersion                    (* - Kindle 版本: {DIST_DIR / 'kindle.html'} *)
| MsgWebVersion.                      (* - PC Web 版本: {DIST_DIR / 'index.html'} *)

(** What [render_templates] and [main] work on besides the world of the
    fetchers: the context dict, which [render_templates] receives by
    reference and changes in place; the files written under [dist], oldest
    first, as name and content; and the lines the two functions print,
    oldest first (the lines of the fetchers stay in [stdout]). *)
Record site : Type := Site {
  site_context : context;
  site_written : list (str * str);
  site_console : list site_message
}.

(** The file system, clock and template engine [render_templates] uses. *)
Record site_env : Type := SiteEnv {
  (** [DIST_DIR.mkdir(parents=True, exist_ok=True)] *)
  dist_mkdir : outcome unit;
  (** [Environment(loader=FileSystemLoader(...), autoescape=True)] *)
  jinja_environment : outcome unit;
  (** [datetime.now().strftime('%Y-%m-%d %H:%M:%S')] *)
  now_text : str;
  (** [static/style_kindle.css] and [static/style_web.css]: [None] when
      the file does not exist, otherwise what [read_text] gives. *)
  style_kindle_css : option (outcome str);
  style_web_css : option (outcome str);
  (** [env.get_template(name)] *)
  get_template : str -> outcome unit;
  (** [template.render] with the entries of the context as keyword
      arguments, for the template of that name. *)
  template_render : str -> context -> outcome str;
  (** [(DIST_DIR / name).write_text(html, encoding='utf-8')] *)
  write_text : str -> str -> outcome unit
}.

Section Site.

Variable E : env.
Variable R : site_env.

Definition console (m : site_message) : M (site * world) unit :=
  fun s =>
    (Ret tt,
     (Site (site_context (fst s)) (site_written (fst s))
           (site_console (fst s) ++ [m]),
      snd s)).

(** [context[key] = value] for the three keys of [render_templates]. *)
Definition set_context (f : context -> context) : M (site * world) unit :=
  fun s =>
    (Ret tt,
     (Site (f (site_context (fst s))) (site_written (fst s))
           (site_console (fst s)),
      snd s)).

Definition get_context : M (site * world) context :=
  fun s => (Ret (site_context (fst s)), s).

(** A file under [dist] has been written. *)
Definition written (name html : str) : M (site * world) unit :=
  fun s =>
    (Ret tt,
     (Site (site_context (fst s)) (site_written (fst s) ++ [(name, html)])
           (site_console (fst s)),
      snd s)).

Definition set_generated_at (v : str) (c : context) : context :=
  Context (ctx_papers c) (ctx_repos c) (ctx_models c) (ctx_quotes c)
          (ctx_lyrics c) (ctx_words c) (Some v) (ctx_kindle_css c)
          (ctx_web_css c).

Definition set_kindle_css (v : str) (c : context) : context :=
  Context (ctx_papers c) (ctx_repos c) (ctx_models c) (ctx_quotes c)
          (ctx_lyrics c) (ctx_words c) (ctx_generated_at c) (Some v)
          (ctx_web_css c).

Definition set_web_css (v : str) (c : context) : context :=
  Context (ctx_papers c) (ctx_repos c) (ctx_models c) (ctx_quotes c)
          (ctx_lyrics c) (ctx_words c) (ctx_generated_at c)
          (ctx_kindle_css c) (Some v).

(** [path.read_text(encoding='utf-8') if path.exists() else ''] *)
Definition read_css {S : Type} (file : option (outcome str)) : M S str :=
  match file with
  | Some content => lift content
  | None => ret []
  end.

(** One of the two [try] bodies of [render_templates]: get the template,
    render it with the context, write the page, print its path. *)
Definition render_page (template output : str) : M (site * world) unit :=
  lift (get_template R template) ;;
  context <- get_context ;;
  html <- lift (template_render R template context) ;;
  lift (write_text R output html) ;;
  written output html ;;
  console (MsgGenerated output).

(** [render_templates]; the context is the one in the state. *)
Definition render_templates : M (site * world) unit :=
  lift (dist_mkdir R) ;;
  lift (jinja_environment R) ;;
  set_context (set_generated_at (now_text R)) ;;
  kindle_css <- read_css (style_kindle_css R) ;;
  set_context (set_kindle_css kindle_css) ;;
  web_css <- read_css (style_web_css R) ;;
  set_context (set_web_css web_css) ;;
  try_except (render_page (lit "kindle.html") (lit "kindle.html"))
             (fun e => console (MsgKindleFailed e)) ;;
  try_except (render_page (lit "web.html") (lit "index.html"))
             (fun e => console (MsgWebFailed e)).

(** [main]: the six sources are read in the order of the dict display,
    with the default arguments of the fetchers. *)
Definition main : M (site * world) unit :=
  console MsgDoubleRule ;;
  console MsgTitle ;;
  console MsgDoubleRule ;;
  console MsgEmptyLine ;;
  papers <- zoom (fetch_arxiv_papers E None 3) ;;
  repos <- zoom (fetch_github_trending E 7 (lit "artificial-intelligence")
                                       10) ;;
  models <- zoom (load_mental_models E) ;;
  quotes <- zoom (load_quotes E) ;;
  lyrics <- zoom (load_lyrics E) ;;
  words <- zoom (load_words E) ;;
  set_context (fun _ => Context papers repos models quotes lyrics words
                                None None None) ;;
  console MsgEmptyLine ;;
  console MsgSingleRule ;;
  console MsgEmptyLine ;;
  render_templates ;;
  console MsgEmptyLine ;;
  console MsgDoubleRule ;;
  console MsgFinished ;;
  console MsgKindleVersion ;;
  console MsgWebVersion ;;
  console MsgDoubleRule.

End Site.

(** What [render_templates] needs before it renders: the output
    directory, the template environment and the two stylesheet texts.
    None of these steps is inside a [try]. *)
Definition prepare (R : site_env) : outcome (str * str) :=
  match dist_mkdir R with
  | Raise e => Raise e
  | Ret _ =>
      match jinja_environment R with
      | Raise e => Raise e
      | Ret _ =>
          match style_kindle_css R with
          | Some (Raise e) => Raise e
          | kindle =>
              match style_web_css R with
              | Some (Raise e) => Raise e
              | web =>
                  Ret (match kindle with Some (Ret t) => t | _ => [] end,
                       match web with Some (Ret t) => t | _ => [] end)
              end
          end
      end
  end.

(** The page a template gives for a context, when the template is found,
    renders and can be written. *)
Definition page (R : site_env) (template output : str) (c : context)
  : outcome str :=
  match get_template R template with
  | Raise e => Raise e
  | Ret _ =>
      match template_render R template c with
      | Raise e => Raise e
      | Ret html =>
          match write_text R output html with
          | Raise e => Raise e
          | Ret _ => Ret html
          end
      end
  end.

(** The context once [render_templates] has set its three keys. *)
Definition completed_context (R : site_env) (css : str * str) (c : context)
  : context :=
  set_web_css (snd css)
    (set_kindle_css (fst css) (set_generated_at (now_text R) c)).

(** What one [try] of [render_templates] leaves: the page written and its
    path printed, or the failure printed. *)
Definition page_written (R : site_env) (template output : str) (c : context)
  : list (str * str) :=
  match page R template output c with
  | Ret html => [(output, html)]
  | Raise _ => []
  end.

Definition page_printed (R : site_env) (template output : str)
    (failed : exn -> site_message) (c : context) : list site_message :=
  match page R template output c with
  | Ret _ => [MsgGenerated output]
  | Raise e => [failed e]
  end.

(** The world once [main] has read its six sources. *)
Definition after_sources (E : env) (w : world) : world :=
  let w1 := snd (fetch_arxiv_papers E None 3 w) in
  let w2 := snd (fetch_github_trending E 7 (lit "artificial-intelligence")
                                       10 w1) in
  let w3 := snd (load_mental_models E w2) in
  let w4 := snd (load_quotes E w3) in
  let w5 := snd (load_lyrics E w4) in
  snd (load_words E w5).

(** The lines [main] prints before it renders. *)
Definition opening_lines : list site_message :=
  [MsgDoubleRule; MsgTitle; MsgDoubleRule; MsgEmptyLine;
   MsgEmptyLine; MsgSingleRule; MsgEmptyLine].

(** ** Sample sites *)

(** A site where the Kindle stylesheet exists and the web one does not;
    [mkdir] and the lookup of the Kindle template are as given. *)
Definition sample_site_env_with (mkdir kindle_template : outcome unit)
  : site_env :=
  SiteEnv mkdir (Ret tt) (lit "2026-01-06 16:44:29")
          (Some (Ret (lit "body{margin:0}"))) None
          (fun name => if str_eqb name (lit "kindle.html")
                       then kindle_template else Ret tt)
          (fun name _ => Ret (lit "<html>" ++ name ++ lit "</html>"))
          (fun _ _ => Ret tt).

Definition sample_site_env : site_env :=
  sample_site_env_with (Ret tt) (Ret tt).

(** The Kindle template is missing. *)
Definition kindle_missing_env : site_env :=
  sample_site_env_with (Ret tt)
                       (Raise (OtherException (lit "TemplateNotFound"))).

(** The output directory cannot be made. *)
Definition no_dist_env : site_env :=
  sample_site_env_with (Raise (OtherException (lit "PermissionError")))
                       (Ret tt).

Definition empty_context : context :=
  Context [] [] (PList []) [] [] (PList []) None None None.

Definition empty_site : site := Site empty_context [] [].

(** The record of [sample_item] with its language. *)
Definition sample_repo (language : pyval) : repo :=
  Repo (PStr (lit "octo/agent")) (PInt 120) (PStr []) []
       (PStr (lit "https://github.com/octo/agent"))
       language (PStr (lit "2026-01-02")).

(** A quote in Chinese that declares its language, and one whose content
    is a number. *)
Definition chinese_quote : pyval :=
  PDict [(lit "content", PStr [23398%N; 32780%N; 19981%N; 21388%N]);
         (lit "author", PStr [23380%N; 23376%N]);
         (lit "language", PStr (lit "zh"))].

Definition numeric_quote : pyval :=
  PDict [(lit "content", PInt 42); (lit "language", PStr (lit "zh"))].

(** The quotes file holds [quotes]; the lyrics directory holds one song of
    two lines. *)
Definition quotes_env (quotes : list pyval) : env :=
  Env sample_ipa
      (fun _ _ => Ret tt)
      (fun _ _ _ text => Ret (lit "zh:" ++ text))
      (fun _ _ => ([sample_result], None))
      (fun _ => Ret (lit "2025-12-30"))
      (fun _ _ => Ret (Response (Ret tt) (Ret (PDict []))))
      (Some (Ret (PList [])))
      (Some (Ret (PList quotes)))
      (Some (Ret (PList [])))
      (Some (Ret [(lit "song", Ret (lit "la la" ++ [10%N] ++ lit "la"))])).

(** What a run returned, or [default] if it raised. *)
Definition returned {S A : Type} (default : A) (run : outcome A * S) : A :=
  match fst run with
  | Ret a => a
  | Raise _ => default
  end.

(** * Properties *)

Unset Implicit Arguments.
Local Open Scope Z_scope.

(** ** Strings *)

Lemma len_app {A : Type} (a b : list A) : len (a ++ b) = len a + len b.
Proof. unfold len. rewrite length_app. lia. Qed.

Lemma len_cons {A : Type} (x : A) (l : list A) : len (x :: l) = 1 + len l.
Proof. unfold len. simpl length. lia. Qed.

Lemma len_nonneg {A : Type} (l : list A) : 0 <= len l.
Proof. unfold len. lia. Qed.

Lemma blank_app a b : blank (a ++ b) = blank a && blank b.
Proof. apply forallb_app. Qed.

Lemma blank_rev s : blank (rev s) = blank s.
Proof.
  induction s as [|c s IH]; [reflexivity|].
  simpl rev. rewrite blank_app, IH. simpl.
  rewrite andb_true_r. apply andb_comm.
Qed.

Lemma lstrip_blank s : blank s = true -> lstrip s = [].
Proof.
  induction s as [|c s IH]; simpl; [reflexivity|].
  destruct (py_isspace c); simpl; [exact IH | discriminate].
Qed.

Lemma lstrip_not_blank s : blank s = false -> blank (lstrip s) = false.
Proof.
  induction s as [|c s IH]; simpl; [discriminate|].
  destruct (py_isspace c) eqn:Hc; simpl; [exact IH|].
  intros _. now rewrite Hc.
Qed.

Lemma not_blank_truthy s : blank s = false -> truthy s = true.
Proof. destruct s; [discriminate | reflexivity]. Qed.

Lemma truthy_rev {A : Type} (l : list A) : truthy (rev l) = truthy l.
Proof.
  destruct l as [|x l]; [reflexivity|].
  simpl. destruct (rev l); reflexivity.
Qed.

Lemma truthy_strip s : truthy (strip s) = negb (blank s).
Proof.
  unfold strip. rewrite truthy_rev.
  destruct (blank s) eqn:Hb; simpl.
  - now rewrite (lstrip_blank _ Hb).
  - apply not_blank_truthy, lstrip_not_blank.
    rewrite blank_rev. now apply lstrip_not_blank.
Qed.

(** The guard [not text or not text.strip()] asks whether the text is
    blank. *)
Lemma guard_blank text :
  negb (truthy text) || negb (truthy (strip text)) = blank text.
Proof.
  rewrite truthy_strip, negb_involutive.
  destruct (blank text) eqn:Hb; [apply orb_true_r|].
  now rewrite (not_blank_truthy _ Hb).
Qed.

(** ** Chunks *)

Lemma concat_chunks_from cur units :
  concat (chunks_from cur units) = cur ++ concat units.
Proof.
  revert cur; induction units as [|u rest IH]; intro cur; simpl.
  - destruct cur; simpl; now rewrite ?app_nil_r.
  - destruct (len cur + len u <? 4500).
    + now rewrite IH, app_assoc.
    + rewrite concat_app, IH. destruct cur; simpl; now rewrite ?app_nil_r.
Qed.

Lemma chunks_from_sized text_units units cur :
  incl units text_units -> sized text_units cur ->
  Forall (sized text_units) (chunks_from cur units).
Proof.
  revert cur; induction units as [|u rest IH]; intros cur Hin Hcur; simpl.
  - destruct (truthy cur); constructor; auto.
  - assert (Hrest : incl rest text_units) by (intros x Hx; apply Hin; now right).
    destruct (len cur + len u <? 4500) eqn:Hfit.
    + apply Z.ltb_lt in Hfit. apply IH; [exact Hrest|].
      left. rewrite len_app. lia.
    + apply Forall_app; split.
      * destruct (truthy cur); constructor; auto.
      * apply IH; [exact Hrest|].
        destruct (Z_lt_ge_dec (len u) 4500) as [Hu|Hu]; [now left|].
        right; split; [apply Hin; now left | lia].
Qed.

Lemma chunks_sized units : Forall (sized units) (chunks units).
Proof.
  apply chunks_from_sized; [apply incl_refl | left; reflexivity].
Qed.

Lemma chunks_under_limit units :
  Forall (fun u => len u < 4500) units ->
  Forall (fun c => len c < 4500) (chunks units).
Proof.
  intro Hu. eapply Forall_impl; [|apply chunks_sized].
  intros c [H|[Hin Hge]]; [exact H|].
  rewrite Forall_forall in Hu. specialize (Hu _ Hin). lia.
Qed.

Lemma chunks_at_least_two units :
  Forall (fun u => len u < 4500) units ->
  4500 <= len (concat units) ->
  2 <= len (chunks units).
Proof.
  intros Hu Htot.
  pose proof (chunks_under_limit _ Hu) as Hc.
  pose proof (concat_chunks_from [] units) as Hcat. fold (chunks units) in Hcat.
  simpl in Hcat. rewrite <- Hcat in Htot.
  destruct (chunks units) as [|c1 [|c2 cs]].
  - simpl in Htot. unfold len in Htot; simpl in Htot; lia.
  - simpl in Htot. rewrite app_nil_r in Htot. inversion Hc; subst. lia.
  - unfold len; simpl. lia.
Qed.


(** ** Units *)

Lemma split_char_nonempty sep s : split_char sep s <> [].
Proof.
  destruct s as [|c s]; simpl; [discriminate|].
  destruct (N.eqb c sep); [discriminate|].
  destruct (split_char sep s); discriminate.
Qed.


Lemma join_push_front sep c pieces :
  pieces <> [] -> join sep (push_front c pieces) = c :: join sep pieces.
Proof.
  destruct pieces as [|u [|u' us]]; intro H; [contradiction| |]; reflexivity.
Qed.











(** ** Binary64 quotients against 0.3 *)

Lemma float_0_3_value : float_0_3 = B64 5404319552844595 (-54).
Proof. vm_compute. reflexivity. Qed.

(** The quotient of the Euclidean division is a bound both ways. *)
Lemma div_rne_between n d :
  0 < d -> n / d <= div_rne n d <= n / d + 1.
Proof.
  intro Hd. unfold div_rne.
  destruct (2 * (n mod d) <? d); [lia|].
  destruct (d <? 2 * (n mod d)); [lia|].
  destruct (Z.even (n / d)); lia.
Qed.

(** Rounding passes an odd [M] exactly from the midpoint after it. *)
Lemma div_rne_above_odd n d M :
  0 < d -> Z.even M = false ->
  (M + 1 <= div_rne n d <-> (2 * M + 1) * d <= 2 * n).
Proof.
  intros Hd Hodd.
  pose proof (Z.div_mod n d ltac:(lia)) as Hn.
  pose proof (Z.mod_pos_bound n d Hd) as Hr.
  unfold div_rne.
  set (q := n / d) in *. set (r := n mod d) in *.
  destruct (Z_lt_ge_dec q M) as [Hq|Hq].
  - (* below M: even rounding up stays at M or under *)
    assert (d * q <= d * (M - 1)) by nia.
    destruct (2 * r <? d); [split; intro; nia|].
    destruct (d <? 2 * r); [split; intro; nia|].
    destruct (Z.even q); split; intro; nia.
  - destruct (Z.eq_dec q M) as [->|Hne].
    + rewrite Hodd.
      destruct (2 * r <? d) eqn:H1; [apply Z.ltb_lt in H1; split; intro; nia|].
      apply Z.ltb_ge in H1.
      destruct (d <? 2 * r); split; intro; nia.
    + assert (d * (M + 1) <= d * q) by nia.
      destruct (2 * r <? d); [split; intro; nia|].
      destruct (d <? 2 * r); [split; intro; nia|].
      destruct (Z.even q); split; intro; nia.
Qed.

(** The binade of a quotient that is at most 1. *)
Lemma binade_le c t :
  0 < c <= t ->
  binade c t <= 0 /\
  t <= c * 2 ^ (- binade c t) < 2 * t.
Proof.
  intros [Hc Hct]. unfold binade, pow2.
  pose proof (Z.log2_spec c Hc) as Hlc.
  pose proof (Z.log2_spec t ltac:(lia)) as Hlt.
  pose proof (Z.log2_le_mono c t Hct) as Hmono.
  pose proof (Z.log2_nonneg c) as Hnn.
  set (la := Z.log2 c) in *. set (lb := Z.log2 t) in *.
  replace (Z.max 0 (la - lb)) with 0 by lia.
  replace (Z.max 0 (- (la - lb))) with (lb - la) by lia.
  assert (HQ : 2 ^ lb = 2 ^ la * 2 ^ (lb - la)).
  { rewrite <- Z.pow_add_r by lia. f_equal. lia. }
  rewrite !Z.pow_succ_r in * by lia.
  assert (HR : 0 < 2 ^ (lb - la)) by (apply Z.pow_pos_nonneg; lia).
  destruct (t * 2 ^ 0 <=? c * 2 ^ (lb - la)) eqn:Htest.
  - apply Z.leb_le in Htest. rewrite Z.pow_0_r in Htest.
    replace (- (la - lb)) with (lb - la) by lia.
    split; [lia|]. split; [lia|]. nia.
  - apply Z.leb_gt in Htest. rewrite Z.pow_0_r in Htest.
    replace (- (la - lb - 1)) with (Z.succ (lb - la)) by lia.
    rewrite Z.pow_succ_r by lia.
    split; [lia|]. split; nia.
Qed.

(** The quotient of two lengths exceeds the literal [0.3] exactly when
    the fraction exceeds three tenths.  The bound on [t] keeps fractions
    above three tenths from rounding down onto the literal. *)
Lemma b64_div_gt_0_3 c t :
  0 <= c <= t -> 0 < t <= 2 ^ 52 ->
  (b64_ltb float_0_3 (b64_div c t) = true <-> 3 * t < 10 * c).
Proof.
  intros [Hc Hct] [Ht Hbound]. rewrite float_0_3_value.
  unfold b64_div.
  destruct (Z.eqb_spec c 0) as [->|Hc0].
  - split; [discriminate | lia].
  - destruct (binade_le c t ltac:(lia)) as [He [Hlo Hhi]].
    set (e := binade c t) in *.
    unfold pow2.
    replace (Z.max 0 (e - 52)) with 0 by lia.
    replace (Z.max 0 (52 - e)) with (52 + - e) by lia.
    rewrite Z.pow_0_r, Z.mul_1_r, Z.pow_add_r by lia.
    set (p := 2 ^ (- e)) in *.
    pose proof (div_rne_between (c * (2 ^ 52 * p)) t Ht) as Hm.
    assert (Hq : 2 ^ 52 <= c * (2 ^ 52 * p) / t < 2 ^ 53).
    { split.
      - apply Z.div_le_lower_bound; [lia | nia].
      - apply Z.div_lt_upper_bound; [lia | nia]. }
    set (m := div_rne (c * (2 ^ 52 * p)) t) in *.
    unfold b64_ltb. simpl mant. simpl expo.
    destruct (Z_le_gt_dec e (-3)) as [Hlow|Hhigh].
    + (* under a quarter *)
      replace (Z.min (-54) (e - 52)) with (e - 52) by lia.
      replace (e - 52 - (e - 52)) with 0 by lia.
      replace (-54 - (e - 52)) with (Z.succ (- 3 - e)) by lia.
      rewrite Z.pow_succ_r, Z.pow_0_r by lia.
      assert (Hp3 : 0 < 2 ^ (- 3 - e)) by (apply Z.pow_pos_nonneg; lia).
      assert (Hp : p = 8 * 2 ^ (- 3 - e)).
      { unfold p. replace (- e) with (3 + (- 3 - e)) by lia.
        rewrite Z.pow_add_r by lia. reflexivity. }
      split.
      * intro H. apply Z.ltb_lt in H. exfalso. 
        change (2 ^ 53) with 9007199254740992 in *. nia.
      * intro H. exfalso. nia.
    + assert (Hcases : e = -2 \/ e = -1 \/ e = 0) by lia.
      destruct Hcases as [He2 | [He1 | He0]].
      * (* between a quarter and a half *)
        unfold m, p. rewrite He2. 
        change (Z.min (-54) (-2 - 52)) with (-54).
        change (-54 - -54) with 0. change (-2 - 52 - -54) with 0.
        rewrite Z.pow_0_r, !Z.mul_1_r.
        rewrite Z.ltb_lt.
        change (- -2) with 2. change (2 ^ 52 * 2 ^ 2) with (2 ^ 54).
        transitivity (5404319552844595 + 1 <= div_rne (c * 2 ^ 54) t);
          [lia|].
        rewrite div_rne_above_odd by (auto; reflexivity).
        change (2 ^ 54) with 18014398509481984.
        change (2 ^ 52) with 4503599627370496 in Hbound.
        lia.
      * unfold p in *. rewrite He1 in *. 
        change (Z.min (-54) (-1 - 52)) with (-54).
        change (-54 - -54) with 0. change (-1 - 52 - -54) with 1.
        change (2 ^ (- -1)) with 2 in *.
        rewrite Z.ltb_lt.
        change (2 ^ 52) with 4503599627370496 in *.
        change (2 ^ 0) with 1. change (2 ^ 1) with 2.
        split; intro; lia.
      * unfold p in *. rewrite He0 in *. 
        change (Z.min (-54) (0 - 52)) with (-54).
        change (-54 - -54) with 0. change (0 - 52 - -54) with 2.
        change (2 ^ (- 0)) with 1 in *.
        rewrite Z.ltb_lt.
        change (2 ^ 52) with 4503599627370496 in *.
        change (2 ^ 0) with 1. change (2 ^ 2) with 4.
        split; intro; lia.
Qed.

(** ** Language detection *)

Lemma replace_space text : replace (lit " ") [] text = filter non_space text.
Proof.
  unfold replace. induction text as [|c rest IH]; [reflexivity|].
  change (replace_from (lit " ") [] 0 (c :: rest))
    with (if N.eqb 32 c && true
          then replace_from (lit " ") [] 0 rest
          else c :: replace_from (lit " ") [] 0 rest).
  simpl filter. unfold non_space at 1. rewrite andb_true_r, IH.
  destruct (N.eqb 32 c); reflexivity.
Qed.

Lemma cjk_non_space c : is_cjk c = true -> non_space c = true.
Proof.
  unfold is_cjk, non_space. intro H.
  apply andb_true_iff in H. destruct H as [H _]. apply N.leb_le in H.
  destruct (N.eqb_spec 32 c); [lia | reflexivity].
Qed.

Lemma len_filter_le {A : Type} (f : A -> bool) (l : list A) :
  len (filter f l) <= len l.
Proof.
  induction l as [|x l IH]; simpl; [lia|].
  destruct (f x); rewrite ?len_cons; lia.
Qed.

Lemma len_cjk_le_non_space text :
  len (filter is_cjk text) <= len (filter non_space text).
Proof.
  induction text as [|c rest IH]; simpl; [lia|].
  destruct (is_cjk c) eqn:Hc.
  - rewrite (cjk_non_space _ Hc), !len_cons. lia.
  - destruct (non_space c); rewrite ?len_cons; lia.
Qed.

(** C8: [detect_language] answers ['zh'] exactly when the characters of
    U+4E00..U+9FFF are more than three tenths of the characters other than
    the space, and ['en'] otherwise, in particular when there is no
    character other than the space.  The text is taken to have at most
    2^52 characters, far beyond what fits in memory. *)
Theorem detect_language_threshold text :
  len text <= 2 ^ 52 ->
  let cjk := len (filter is_cjk text) in
  let total := len (filter non_space text) in
  (detect_language text = lit "zh" <->
   0 < total /\ (3 # 10 < cjk # Z.to_pos total)%Q) /\
  (detect_language text <> lit "zh" -> detect_language text = lit "en") /\
  (total = 0 -> detect_language text = lit "en").
Proof.
  intros Hlen cjk total.
  pose proof (len_cjk_le_non_space text) as Hle.
  pose proof (len_filter_le non_space text) as Htot.
  pose proof (len_nonneg (filter is_cjk text)) as Hcjk.
  unfold detect_language. rewrite replace_space.
  fold cjk. fold total. fold cjk in Hle, Hcjk. fold total in Hle, Htot.
  destruct (Z.eqb_spec total 0) as [H0|H0].
  - split; [|split]; try reflexivity.
    split; [discriminate | lia].
  - assert (Hpos : 0 < total) by lia.
    assert (Hfrac : (3 # 10 < cjk # Z.to_pos total)%Q <-> 3 * total < 10 * cjk).
    { unfold Qlt. simpl Qnum. simpl Qden. rewrite Z2Pos.id by lia. lia. }
    rewrite Hfrac.
    pose proof (b64_div_gt_0_3 cjk total ltac:(lia) ltac:(lia)) as Hgt.
    destruct (b64_ltb float_0_3 (b64_div cjk total)).
    + split; [|split].
      * split; [intros _; split; [lia | now apply Hgt] | reflexivity].
      * intro H; now contradiction H.
      * intro; lia.
    + split; [|split].
      * split; [discriminate|]. intros [_ H]. apply Hgt in H. discriminate.
      * reflexivity.
      * reflexivity.
Qed.

Lemma str_eqb_eq a b : str_eqb a b = true <-> a = b.
Proof.
  revert b; induction a as [|x a IH]; intros [|y b]; simpl;
    try (split; [discriminate | discriminate]); [tauto|].
  rewrite andb_true_iff, N.eqb_eq, IH.
  split; [intros [-> ->]; reflexivity | intro H; injection H; auto].
Qed.

Lemma str_eqb_refl a : str_eqb a a = true.
Proof. now apply str_eqb_eq. Qed.

Lemma str_eqb_neq a b : a <> b -> str_eqb a b = false.
Proof.
  intro H. destruct (str_eqb a b) eqn:Heq; [|reflexivity].
  apply str_eqb_eq in Heq. contradiction.
Qed.


(** ** Every boundary is a cut *)




(** ** Chunks against the stretches of text they cover *)








Section Properties.

Variable E : env.

(** ** The annotator *)

Lemma add_ipa_to_word_total (S : Type) (word : str) (s : S) :
  exists r, add_ipa_to_word E word s = (Ret r, s).
Proof.
  unfold add_ipa_to_word.
  destruct (len (sub_non_alpha word) <=? 7); [now exists word|].
  cbv [bind try_except lift ret].
  destruct (ipa_convert E (lower (sub_non_alpha word))) as [phonetic|e];
    [|eauto].
  destruct (truthy phonetic && negb (str_eqb phonetic _)); eauto.
Qed.

Lemma add_ipa_to_text_total (S : Type) (text : str) (s : S) :
  exists r, add_ipa_to_text E text s = (Ret r, s).
Proof.
  unfold add_ipa_to_text.
  assert (G : forall words, exists rs,
             map_m (add_ipa_to_word E (S:=S)) words s = (Ret rs, s)).
  { induction words as [|x rest [rs IH]]; simpl; [now exists []|].
    destruct (add_ipa_to_word_total S x s) as [r Hr].
    exists (r :: rs). cbv [bind ret]. now rewrite Hr, IH. }
  destruct (G (split_ws text)) as [rs Hrs].
  eexists. cbv [bind ret]. now rewrite Hrs.
Qed.

(** C6: [add_ipa_to_word] never raises and leaves the state alone.  It
    returns the word as given when the word has at most 7 letters, and
    when it has more but the transcription raises, is empty, or is the
    lower-cased letters themselves. *)
Theorem add_ipa_to_word_unchanged (S : Type) (word : str) (s : S) :
  let clean_word := sub_non_alpha word in
  (exists r, add_ipa_to_word E word s = (Ret r, s)) /\
  (len clean_word <= 7 -> add_ipa_to_word E word s = (Ret word, s)) /\
  (7 < len clean_word ->
   (exists e, ipa_convert E (lower clean_word) = Raise e) \/
   ipa_convert E (lower clean_word) = Ret [] \/
   ipa_convert E (lower clean_word) = Ret (lower clean_word) ->
   add_ipa_to_word E word s = (Ret word, s)).
Proof.
  intro clean_word. unfold add_ipa_to_word. fold clean_word.
  destruct (len clean_word <=? 7) eqn:Hlen.
  - repeat split; try (intros; reflexivity). now exists word.
  - apply Z.leb_gt in Hlen. split; [|split].
    + cbv [bind try_except lift ret].
      destruct (ipa_convert E (lower clean_word)) as [phonetic|e]; [|eauto].
      destruct (truthy phonetic && negb (str_eqb phonetic (lower clean_word)));
        eauto.
    + intro H. lia.
    + intros _ Hconv. cbv [bind try_except lift ret].
      destruct Hconv as [[e ->] | [-> | ->]]; try reflexivity.
      now rewrite str_eqb_refl, andb_false_r.
Qed.

(** C7, as the code has it: for a word of more than 7 letters whose
    transcription is not empty and differs from the lower-cased letters,
    [add_ipa_to_word] returns the word as given followed by
    [<sup class='ipa'>/transcription/</sup>], the attribute in single
    quotes. *)
Theorem add_ipa_to_word_annotated (S : Type) (word phonetic : str) (s : S) :
  7 < len (sub_non_alpha word) ->
  ipa_convert E (lower (sub_non_alpha word)) = Ret phonetic ->
  phonetic <> [] ->
  phonetic <> lower (sub_non_alpha word) ->
  add_ipa_to_word E word s
  = (Ret (word ++ lit "<sup class='ipa'>/" ++ phonetic ++ lit "/</sup>"), s).
Proof.
  intros Hlen Hconv Hne Hdiff. unfold add_ipa_to_word.
  apply Z.leb_gt in Hlen. rewrite Hlen.
  cbv [bind try_except lift ret]. rewrite Hconv.
  rewrite (str_eqb_neq _ _ Hdiff).
  destruct phonetic; [contradiction | reflexivity].
Qed.


(** ** The translator *)

Section Translator.

Variables source target : str.

Lemma translate_all_world texts w :
  exists k,
    snd (translate_all E source target texts w)
    = World (calls w ++ firstn k texts) (stdout w).
Proof.
  revert w; induction texts as [|c rest IH]; intro w.
  - exists 0%nat. simpl. rewrite app_nil_r. now destruct w.
  - simpl. unfold bind at 1, translate at 1.
    destruct (google_translate E source target (calls w) c) as [t|e].
    + destruct (IH (World (calls w ++ [c]) (stdout w))) as [k Hk].
      exists (S k). unfold bind at 1.
      destruct (translate_all E source target rest _) as [[ts|e] w'];
        simpl in *; rewrite Hk; now rewrite <- app_assoc.
    + exists 1%nat. reflexivity.
Qed.

Lemma translate_all_ok texts w ts w' :
  translate_all E source target texts w = (Ret ts, w') ->
  w' = World (calls w ++ texts) (stdout w) /\
  Forall2 (fun c t => exists h, google_translate E source target h c = Ret t)
          texts ts.
Proof.
  revert w ts w'; induction texts as [|c rest IH]; intros w ts w'; simpl.
  - intro H; injection H as <- <-. rewrite app_nil_r. split; [now destruct w | constructor].
  - unfold bind at 1, translate at 1.
    destruct (google_translate E source target (calls w) c) as [t|e] eqn:Hc;
      [|discriminate].
    unfold bind at 1.
    destruct (translate_all E source target rest _) as [[ts'|e] w1] eqn:Hrest;
      [|discriminate].
    intro H; injection H as <- <-.
    apply IH in Hrest. destruct Hrest as [-> HF]. simpl.
    rewrite <- app_assoc. split; [reflexivity|].
    constructor; [eauto | exact HF].
Qed.

(** A run of [translate_all] fails exactly when one text is refused after
    all the texts before it were translated. *)
Lemma translate_all_raise pre c post ts w0 w e :
  translate_all E source target pre w = (Ret ts, w0) ->
  google_translate E source target (calls w0) c = Raise e ->
  translate_all E source target (pre ++ c :: post) w
  = (Raise e, World (calls w0 ++ [c]) (stdout w)).
Proof.
  revert w ts w0; induction pre as [|p pre IH]; intros w ts w0; simpl.
  - intro H; injection H as <- <-. intro Hc.
    unfold bind, translate. now rewrite Hc.
  - unfold bind at 1 3, translate at 1 2.
    destruct (google_translate E source target (calls w) p) as [t|e'];
      [|discriminate].
    unfold bind at 1 2.
    destruct (translate_all E source target pre _) as [[ts'|e'] w1] eqn:Hpre;
      [|discriminate].
    intro H; injection H as <- <-. intro Hc.
    now rewrite (IH _ _ _ Hpre Hc).
Qed.

(** The loop and the last flush submit the chunks in order. *)
Lemma chunk_loop_run units parts cur w :
  ('(translated_parts, current_chunk) <-
      chunk_loop E source target units parts cur ;;
   if truthy current_chunk
   then t <- translate E source target current_chunk ;;
        ret (translated_parts ++ [t])
   else ret translated_parts) w
  = match translate_all E source target (chunks_from cur units) w with
    | (Ret ts, w') => (Ret (parts ++ ts), w')
    | (Raise e, w') => (Raise e, w')
    end.
Proof.
  revert parts cur w; induction units as [|u rest IH]; intros parts cur w.
  - simpl. cbv [bind ret translate].
    destruct (truthy cur); simpl; cbv [bind ret translate].
    + destruct (google_translate E source target (calls w) cur); reflexivity.
    + now rewrite app_nil_r.
  - simpl chunk_loop. simpl chunks_from.
    destruct (len cur + len u <? 4500); [apply IH|].
    destruct (truthy cur).
    + simpl app. simpl translate_all.
      cbv [bind ret translate] in IH |- *.
      destruct (google_translate E source target (calls w) cur) as [t|e];
        [|reflexivity].
      rewrite IH.
      destruct (translate_all E source target (chunks_from u rest) _)
        as [[ts|e] w']; [|reflexivity].
      now rewrite <- app_assoc.
    + specialize (IH parts u w).
      cbv [bind ret] in IH |- *. exact IH.
Qed.

(** [translate_text] on a text that is not blank: build the translator,
    submit the planned texts, join the answers; any failure ends in the
    handler. *)
Lemma translate_text_run text w :
  blank text = false ->
  translate_text E text source target w
  = match google_translator E source target with
    | Raise e => (Ret [], warned e w)
    | Ret _ =>
        match translate_all E source target (planned_calls text) w with
        | (Ret ts, w') => (Ret (join (lit " ") ts), w')
        | (Raise e, w') => (Ret [], warned e w')
        end
    end.
Proof.
  intro Hb. unfold translate_text. rewrite guard_blank, Hb.
  unfold try_except, planned_calls.
  unfold bind at 1, lift at 1.
  destruct (google_translator E source target) as [[]|e]; [|reflexivity].
  destruct (4500 <? len text).
  - unfold bind at 1.
    pose proof (chunk_loop_run (sentences text) [] [] w) as Hrun.
    unfold bind at 1 in Hrun. fold (sentences text).
    destruct (chunk_loop E source target (sentences text) [] [] w)
      as [[[tp cc]|e] w1].
    + unfold bind at 1. rewrite Hrun. unfold chunks.
      destruct (translate_all E source target _ w) as [[ts|e] w2];
        reflexivity.
    + unfold chunks.
      destruct (translate_all E source target _ w) as [[ts|e'] w2];
        [discriminate Hrun | injection Hrun as <- <-; reflexivity].
  - simpl. cbv [bind ret translate].
    destruct (google_translate E source target (calls w) text); reflexivity.
Qed.

(** [translate_text] returns whatever happens inside it. *)
Lemma translate_text_total text w :
  exists r w', translate_text E text source target w = (Ret r, w').
Proof.
  destruct (blank text) eqn:Hb.
  - unfold translate_text. rewrite guard_blank, Hb. now do 2 eexists.
  - rewrite (translate_text_run _ _ Hb).
    destruct (google_translator E source target); [|eauto].
    destruct (translate_all E source target _ w) as [[ts|e] w']; eauto.
Qed.

(** C4: a blank text, empty or made of whitespace only, gives the empty
    string and leaves the world as it was: nothing is submitted to the
    translation service and nothing is printed. *)
Theorem translate_text_blank text w :
  blank text = true ->
  translate_text E text source target w = (Ret [], w).
Proof.
  intro Hb. unfold translate_text. now rewrite guard_blank, Hb.
Qed.

(** C5, as the code has it: for a text that is not blank and has at most
    4500 characters, once the translator for the language pair is built
    the text is submitted once, whole, and the answer of that one call is
    returned, or the empty string, with the warning printed, when the
    call raises; when building the translator raises, nothing is
    submitted and the empty string is returned with the warning. *)
Theorem translate_text_short text w :
  blank text = false ->
  len text <= 4500 ->
  (google_translator E source target = Ret tt ->
   translate_text E text source target w
   = match google_translate E source target (calls w) text with
     | Ret t => (Ret t, World (calls w ++ [text]) (stdout w))
     | Raise e =>
         (Ret [], World (calls w ++ [text])
                        (stdout w ++ [MsgTranslateFailed e]))
     end) /\
  (forall e,
     google_translator E source target = Raise e ->
     translate_text E text source target w
     = (Ret [], World (calls w) (stdout w ++ [MsgTranslateFailed e]))).
Proof.
  intros Hb Hlen. split.
  - intro Hgt.
    rewrite (translate_text_run _ _ Hb), Hgt. unfold planned_calls.
    apply Z.ltb_ge in Hlen. rewrite Hlen. simpl. cbv [bind ret translate].
    destruct (google_translate E source target (calls w) text); reflexivity.
  - intros e Hgt. now rewrite (translate_text_run _ _ Hb), Hgt.
Qed.

(** C2: [translate_text] always returns, whatever the translator does.
    When building the translator raises, or when a planned text is refused
    after the texts before it were translated, the handler prints the
    warning and the result is the empty string: the translations already
    obtained are dropped and the remaining texts are not submitted. *)
Theorem translate_text_failure text w :
  (exists r w', translate_text E text source target w = (Ret r, w')) /\
  (forall e,
     blank text = false ->
     google_translator E source target = Raise e ->
     translate_text E text source target w = (Ret [], warned e w)) /\
  (forall pre c post ts w0 e,
     blank text = false ->
     google_translator E source target = Ret tt ->
     planned_calls text = pre ++ c :: post ->
     translate_all E source target pre w = (Ret ts, w0) ->
     google_translate E source target (calls w0) c = Raise e ->
     translate_text E text source target w
     = (Ret [], World (calls w ++ pre ++ [c])
                      (stdout w ++ [MsgTranslateFailed e]))).
Proof.
  split; [|split].
  - apply translate_text_total.
  - intros e Hb Hgt. now rewrite (translate_text_run _ _ Hb), Hgt.
  - intros pre c post ts w0 e Hb Hgt Hplan Hpre Hc.
    rewrite (translate_text_run _ _ Hb), Hgt, Hplan.
    rewrite (translate_all_raise _ _ _ _ _ _ _ Hpre Hc).
    apply translate_all_ok in Hpre. destruct Hpre as [-> _].
    unfold warned. simpl. now rewrite <- app_assoc.
Qed.

(** C1, as the code has it: a text over 4500 characters that is not blank
    is cut into units and the units are gathered into chunks.  The chunks
    hold the units in order with nothing in between; a chunk is under 4500
    characters unless it is a single unit of 4500 characters or more; when
    every unit is under 4500 characters so is every chunk, and there are
    at least two chunks as soon as the units together have 4500 characters
    or more.  When the translator is built and every chunk is translated,
    the chunks are what was submitted, in order, and the result is their
    translations joined with single spaces. *)
Theorem translate_text_chunked text w :
  4500 < len text ->
  blank text = false ->
  let units := sentences text in
  let cs := chunks units in
  concat cs = concat units /\
  Forall (sized units) cs /\
  (Forall (fun u => len u < 4500) units ->
   Forall (fun c => len c < 4500) cs /\
   (4500 <= len (concat units) -> 2 <= len cs)) /\
  (forall ts w',
     google_translator E source target = Ret tt ->
     translate_all E source target cs w = (Ret ts, w') ->
     translate_text E text source target w = (Ret (join (lit " ") ts), w') /\
     calls w' = calls w ++ cs /\
     stdout w' = stdout w /\
     Forall2 (fun c t => exists h, google_translate E source target h c = Ret t)
             cs ts).
Proof.
  intros Hlen Hb units cs. split; [|split; [|split]].
  - apply (concat_chunks_from [] units).
  - apply chunks_sized.
  - intro Hunits. split.
    + now apply chunks_under_limit.
    + now apply chunks_at_least_two.
  - intros ts w' Hgt Hall.
    split.
    + rewrite (translate_text_run _ _ Hb), Hgt. unfold planned_calls.
      apply Z.ltb_lt in Hlen. rewrite Hlen. fold units. fold cs.
      now rewrite Hall.
    + apply translate_all_ok in Hall. destruct Hall as [-> HF].
      repeat split. exact HF.
Qed.


End Translator.

(** ** Fetchers and loaders *)

Lemma paper_of_total result w :
  exists p w', paper_of E result w = (Ret p, w').
Proof.
  unfold paper_of.
  destruct (add_ipa_to_text_total world (ar_title result) w) as [t Ht].
  destruct (translate_text_total (lit "en") (lit "zh-CN")
              (replace [10%N] (lit " ") (ar_summary result)) w)
    as [z [w' Hz]].
  do 2 eexists. cbv [bind ret translate_text_default]. rewrite Ht, Hz.
  reflexivity.
Qed.




(** The loop with its [append], run from a list [acc] already filled. *)
Lemma for_each_append {A R : Type} (f : A -> M world R) items acc w :
  for_each items (fun x => r <- zoom (f x) ;; append r) (acc, w)
  = match collect f items w with
    | ((rs, None), w') => (Ret tt, (acc ++ rs, w'))
    | ((rs, Some e), w') => (Raise e, (acc ++ rs, w'))
    end.
Proof.
  revert acc w; induction items as [|x rest IH]; intros acc w; simpl.
  - cbv [ret]. now rewrite app_nil_r.
  - cbv [bind zoom append] in IH |- *. simpl.
    destruct (f x w) as [[r|e] w1]; simpl.
    + rewrite IH.
      destruct (collect f rest w1) as [[rs [e|]] w2];
        now rewrite <- app_assoc.
    + now rewrite app_nil_r.
Qed.

Lemma fetch_arxiv_papers_run categories max_results w :
  exists w',
    fetch_arxiv_papers E categories max_results w
    = (Ret (completed (paper_of E)
              (fst (arxiv_results E (arxiv_query categories) max_results))
              (printed (MsgArxivFetching max_results) w)),
       w').
Proof.
  unfold fetch_arxiv_papers, completed.
  unfold with_local, try_except.
  unfold bind at 1. unfold bind at 1.
  unfold zoom at 1, print at 1. simpl fst. simpl snd.
  destruct (arxiv_results E (arxiv_query categories) max_results)
    as [results broken].
  unfold bind at 1. rewrite for_each_append. simpl fst.
  destruct (collect (paper_of E) results _) as [[ps err] w1].
  simpl app. simpl fst.
  destruct err as [e|].
  - cbv [bind zoom print get_local]. simpl. eauto.
  - destruct broken as [e|]; cbv [bind zoom print get_local raise ret];
      simpl; eauto.
Qed.

(** Every handler of the fetchers prints one line and goes on. *)
Ltac handle e :=
  destruct e; cbv [bind zoom print get_local]; simpl; eauto.

Lemma fetch_github_trending_run days topic max_results w :
  exists w',
    fetch_github_trending E days topic max_results w
    = (Ret match github_items E days topic max_results with
           | Ret items =>
               completed (repo_of E) items
                         (printed (MsgGithubSearching days) w)
           | Raise _ => []
           end,
       w').
Proof.
  unfold fetch_github_trending, github_items, completed.
  unfold with_local, try_except.
  unfold bind at 1. unfold bind at 1. unfold lift at 1.
  destruct (since_date E days) as [since|e]; [|handle e].
  unfold bind at 1. unfold zoom at 1, print at 1. simpl fst. simpl snd.
  unfold bind at 1. unfold lift at 1.
  destruct (requests_get E _ max_results) as [resp|e]; [|handle e].
  unfold bind at 1. unfold lift at 1.
  destruct (raise_for_status resp) as [[]|e]; [|handle e].
  unfold bind at 1. unfold lift at 1.
  destruct (json resp) as [data|e]; [|handle e].
  unfold bind at 1. unfold lift at 1.
  destruct (py_get data (lit "items") (PList [])) as [v1|e]; [|handle e].
  unfold bind at 1. unfold lift at 1.
  destruct (py_slice_to max_results v1) as [v2|e]; [|handle e].
  unfold bind at 1. unfold lift at 1.
  destruct (py_iter v2) as [items|e]; [|handle e].
  unfold bind at 1. rewrite for_each_append.
  destruct (collect (repo_of E) items _) as [[rs err] w1].
  simpl app. simpl fst.
  destruct err as [e|]; [handle e|].
  cbv [bind zoom print get_local]. simpl. eauto.
Qed.

Lemma load_mental_models_run w :
  exists w',
    load_mental_models E w
    = (Ret match models_file E with
           | Some (Ret models) => models
           | _ => PList []
           end,
       w').
Proof.
  unfold load_mental_models, with_local, try_except.
  unfold bind at 1.
  destruct (models_file E) as [[models|e]|].
  - cbv [bind lift set_local zoom print get_local]. simpl.
    destruct (py_len models) as [n|e]; simpl; [eauto|].
    destruct e; simpl; eauto.
  - cbv [bind lift]. handle e.
  - cbv [bind zoom print get_local]. simpl. eauto.
Qed.

Lemma load_words_run w :
  exists w',
    load_words E w
    = (Ret match words_file E with
           | Some (Ret words) => words
           | _ => PList []
           end,
       w').
Proof.
  unfold load_words, with_local, try_except.
  unfold bind at 1.
  destruct (words_file E) as [[words|e]|].
  - cbv [bind lift set_local zoom print get_local]. simpl.
    destruct (py_len words) as [n|e]; simpl; [eauto|].
    destruct e; simpl; eauto.
  - cbv [bind lift]. handle e.
  - cbv [bind zoom print get_local]. simpl. eauto.
Qed.

Lemma load_quotes_run w :
  exists w',
    load_quotes E w
    = (Ret match quotes_file E with
           | Some (Ret raw_quotes) =>
               match py_iter raw_quotes with
               | Ret items => completed (quote_of E) items w
               | Raise _ => []
               end
           | _ => []
           end,
       w').
Proof.
  unfold load_quotes, completed, with_local, try_except.
  unfold bind at 1.
  destruct (quotes_file E) as [[raw|e]|].
  - unfold bind at 1. unfold lift at 1.
    unfold bind at 1. unfold lift at 1.
    destruct (py_iter raw) as [items|e]; [|handle e].
    unfold bind at 1. rewrite for_each_append.
    destruct (collect (quote_of E) items w) as [[qs err] w1].
    simpl app. simpl fst.
    destruct err as [e|]; [handle e|].
    cbv [bind zoom print get_local]. simpl. eauto.
  - cbv [bind lift]. handle e.
  - cbv [bind zoom print get_local]. simpl. eauto.
Qed.

Lemma load_lyrics_run w :
  exists w',
    load_lyrics E w
    = (Ret match lyrics_dir E with
           | Some (Ret txt_files) => completed lyric_of txt_files w
           | _ => []
           end,
       w').
Proof.
  unfold load_lyrics, completed, with_local, try_except.
  unfold bind at 1.
  destruct (lyrics_dir E) as [[files|e]|].
  - unfold bind at 1. unfold lift at 1.
    unfold bind at 1. rewrite for_each_append.
    destruct (collect lyric_of files w) as [[ls err] w1].
    simpl app. simpl fst.
    destruct err as [e|]; cbv [bind zoom print get_local]; simpl; eauto.
  - cbv [bind lift zoom print get_local]. simpl. eauto.
  - cbv [bind zoom print get_local]. simpl. eauto.
Qed.


(** The language field of a record is what the item holds under
    ["language"], whatever it is; "Unknown" stands in only when the item
    has no such key. *)
Lemma repo_of_language item r w w' :
  repo_of E item w = (Ret r, w') ->
  exists pairs,
    item = PDict pairs /\
    repo_language r = match lookup (lit "language") pairs with
                      | Some v => v
                      | None => PStr (lit "Unknown")
                      end.
Proof.
  intro H. unfold repo_of in H.
  destruct item as [| | | | |pairs];
    try (cbv [bind lift py_get] in H; discriminate H).
  exists pairs. split; [reflexivity|].
  cbv [bind lift ret py_get py_item] in H.
  repeat match type of H with
         | context [match ?x with _ => _ end] =>
             destruct x eqn:?; try discriminate H
         end;
    injection H as <- <-; reflexivity.
Qed.


End Properties.

(** * Further properties *)

(** ** More on whitespace splitting *)

Lemma split_ws_from_solid t cur rest :
  solid t = true ->
  split_ws_from cur (t ++ rest) = split_ws_from (cur ++ t) rest.
Proof.
  revert cur; induction t as [|c t IH]; intros cur Ht; simpl.
  - now rewrite app_nil_r.
  - simpl in Ht. apply andb_true_iff in Ht. destruct Ht as [Hc Ht].
    apply negb_true_iff in Hc. rewrite Hc, (IH _ Ht), <- app_assoc.
    reflexivity.
Qed.

Lemma split_ws_from_tokens cur s :
  solid cur = true ->
  Forall (fun t => truthy t = true /\ solid t = true) (split_ws_from cur s).
Proof.
  revert cur; induction s as [|c s IH]; intros cur Hcur; simpl.
  - destruct (truthy cur) eqn:Ht; constructor; auto.
  - destruct (py_isspace c) eqn:Hc.
    + apply Forall_app; split; [|now apply IH].
      destruct (truthy cur) eqn:Ht; constructor; auto.
    + apply IH. unfold solid. rewrite forallb_app. fold (solid cur).
      rewrite Hcur. simpl. now rewrite Hc.
Qed.

(** The tokens of [s.split()] are not empty and hold no whitespace. *)
Lemma split_ws_tokens s :
  Forall (fun t => truthy t = true /\ solid t = true) (split_ws s).
Proof. now apply split_ws_from_tokens. Qed.

(** Splitting what [' '.join] made of such tokens gives them back. *)
Lemma split_ws_join tokens :
  Forall (fun t => truthy t = true /\ solid t = true) tokens ->
  split_ws (join (lit " ") tokens) = tokens.
Proof.
  unfold split_ws.
  induction tokens as [|t rest IH]; intro H; [reflexivity|].
  inversion H as [|? ? [Ht Hs] Hrest]; subst.
  destruct rest as [|t' rest'].
  - simpl join. rewrite <- (app_nil_r t) at 1.
    rewrite (split_ws_from_solid _ _ _ Hs). simpl. now rewrite Ht.
  - change (join (lit " ") (t :: t' :: rest'))
      with (t ++ 32%N :: join (lit " ") (t' :: rest')).
    rewrite (split_ws_from_solid _ _ _ Hs). simpl app.
    change (split_ws_from t (32%N :: join (lit " ") (t' :: rest')))
      with ((if truthy t then [t] else [])
            ++ split_ws_from [] (join (lit " ") (t' :: rest'))).
    rewrite Ht, (IH Hrest). reflexivity.
Qed.

Section Extras.
Variable E : env.

(** X1: [add_ipa_to_word] never alters the word itself: its result is the
    word as given followed by a suffix, and the suffix is either empty or
    an annotation [<sup class='ipa'>/.../</sup>] around a transcription
    that is not empty. *)
Theorem add_ipa_to_word_appends (S : Type) (word : str) (s : S) :
  exists suffix,
    add_ipa_to_word E word s = (Ret (word ++ suffix), s) /\
    (suffix = [] \/
     exists phonetic,
       phonetic <> [] /\
       suffix = lit "<sup class='ipa'>/" ++ phonetic ++ lit "/</sup>").
Proof.
  unfold add_ipa_to_word.
  destruct (len (sub_non_alpha word) <=? 7).
  - exists []. rewrite app_nil_r. split; [reflexivity | now left].
  - cbv [bind try_except lift ret].
    destruct (ipa_convert E (lower (sub_non_alpha word))) as [phonetic|e].
    + destruct (truthy phonetic) eqn:Ht; simpl.
      * destruct (str_eqb phonetic (lower (sub_non_alpha word))); simpl.
        -- exists []. rewrite app_nil_r. split; [reflexivity | now left].
        -- eexists. split; [reflexivity|]. right. exists phonetic.
           split; [|reflexivity]. intros ->. discriminate.
      * exists []. rewrite app_nil_r. split; [reflexivity | now left].
    + exists []. rewrite app_nil_r. split; [reflexivity | now left].
Qed.

Lemma len_lower s : len (lower s) = len s.
Proof. unfold len, lower. now rewrite length_map. Qed.

(** X2: the annotation depends on the letters of the word only, without
    their case: two words with the same lower-cased letters get the same
    suffix, whatever punctuation, digits or capitals they carry. *)
Theorem add_ipa_to_word_same_letters (S : Type) (word1 word2 : str) (s : S) :
  lower (sub_non_alpha word1) = lower (sub_non_alpha word2) ->
  exists suffix,
    add_ipa_to_word E word1 s = (Ret (word1 ++ suffix), s) /\
    add_ipa_to_word E word2 s = (Ret (word2 ++ suffix), s).
Proof.
  intro Hsame.
  assert (Hlen : len (sub_non_alpha word1) = len (sub_non_alpha word2)).
  { rewrite <- (len_lower (sub_non_alpha word1)), Hsame. apply len_lower. }
  unfold add_ipa_to_word. rewrite Hlen, Hsame.
  destruct (len (sub_non_alpha word2) <=? 7).
  - exists []. now rewrite !app_nil_r.
  - cbv [bind try_except lift ret].
    destruct (ipa_convert E (lower (sub_non_alpha word2))) as [phonetic|e].
    + destruct (truthy phonetic && negb (str_eqb phonetic _)).
      * eexists. split; reflexivity.
      * exists []. now rewrite !app_nil_r.
    + exists []. now rewrite !app_nil_r.
Qed.

Lemma map_m_short_words (S : Type) (words : list str) (s : S) :
  Forall (fun w => len (sub_non_alpha w) <= 7) words ->
  map_m (add_ipa_to_word E (S:=S)) words s = (Ret words, s).
Proof.
  induction words as [|w rest IH]; intro H; [reflexivity|].
  inversion H as [|? ? Hw Hrest]; subst.
  simpl. cbv [bind ret]. unfold add_ipa_to_word at 1.
  apply Z.leb_le in Hw. rewrite Hw. cbv [ret]. now rewrite (IH Hrest).
Qed.

(** X3: on a text whose words all have at most 7 letters,
    [add_ipa_to_text] changes nothing but the whitespace: it returns the
    words joined with single spaces, so leading, trailing and repeated
    whitespace, tabs and line breaks are lost. *)
Theorem add_ipa_to_text_short_words (S : Type) (text : str) (s : S) :
  Forall (fun w => len (sub_non_alpha w) <= 7) (split_ws text) ->
  add_ipa_to_text E text s = (Ret (join (lit " ") (split_ws text)), s).
Proof.
  intro H. unfold add_ipa_to_text. cbv [bind ret].
  now rewrite (map_m_short_words _ _ _ H).
Qed.

(** X4: on such a text [add_ipa_to_text] is idempotent: applied to its own
    result it returns it unchanged. *)
Theorem add_ipa_to_text_idempotent (S : Type) (text r : str) (s : S) :
  Forall (fun w => len (sub_non_alpha w) <= 7) (split_ws text) ->
  add_ipa_to_text E text s = (Ret r, s) ->
  add_ipa_to_text E r s = (Ret r, s).
Proof.
  intros H Hr.
  unfold add_ipa_to_text in Hr. cbv [bind ret] in Hr.
  rewrite (map_m_short_words _ _ _ H) in Hr. injection Hr as <-.
  unfold add_ipa_to_text. cbv [bind ret].
  rewrite (split_ws_join _ (split_ws_tokens text)).
  now rewrite (map_m_short_words _ _ _ H).
Qed.

End Extras.

(** ** More on chunks *)

Lemma in_firstn {A : Type} (x : A) k (l : list A) :
  In x (firstn k l) -> In x l.
Proof.
  intro H. rewrite <- (firstn_skipn k l). apply in_or_app. now left.
Qed.

Lemma chunks_from_truthy cur units :
  Forall (fun c => truthy c = true) (chunks_from cur units).
Proof.
  revert cur; induction units as [|u rest IH]; intro cur; simpl.
  - destruct (truthy cur) eqn:Ht; constructor; auto.
  - destruct (len cur + len u <? 4500); [apply IH|].
    apply Forall_app; split; [|apply IH].
    destruct (truthy cur) eqn:Ht; constructor; auto.
Qed.

Lemma chunks_from_count cur units :
  len (chunks_from cur units)
  <= len units + (if truthy cur then 1 else 0).
Proof.
  revert cur; induction units as [|u rest IH]; intro cur; simpl chunks_from.
  - destruct (truthy cur); unfold len; simpl; lia.
  - destruct (len cur + len u <? 4500) eqn:Hfit.
    + specialize (IH (cur ++ u)). rewrite len_cons.
      destruct (truthy (cur ++ u)) eqn:Ht.
      * destruct (truthy cur); lia.
      * destruct (truthy cur); lia.
    + specialize (IH u). rewrite len_app, len_cons.
      assert (len (if truthy cur then [cur] else [])
              = if truthy cur then 1 else 0)
        by (destruct (truthy cur); reflexivity).
      destruct (truthy u); destruct (truthy cur); lia.
Qed.

(** A current chunk of 4500 characters or more takes no further unit. *)
Lemma chunks_from_full cur units :
  4500 <= len cur -> In cur (chunks_from cur units).
Proof.
  intro Hfull.
  assert (Ht : truthy cur = true).
  { destruct cur; [unfold len in Hfull; simpl in Hfull; lia | reflexivity]. }
  destruct units as [|u rest]; simpl.
  - rewrite Ht. now left.
  - pose proof (len_nonneg u).
    destruct (len cur + len u <? 4500) eqn:Hfit;
      [apply Z.ltb_lt in Hfit; lia|].
    rewrite Ht. now left.
Qed.

Lemma chunks_from_oversized u cur units :
  In u units -> 4500 <= len u -> In u (chunks_from cur units).
Proof.
  revert cur; induction units as [|v rest IH]; intros cur Hin Hbig;
    [contradiction|].
  simpl. pose proof (len_nonneg cur).
  destruct Hin as [->|Hin].
  - destruct (len cur + len u <? 4500) eqn:Hfit;
      [apply Z.ltb_lt in Hfit; lia|].
    apply in_or_app. right. now apply chunks_from_full.
  - destruct (len cur + len v <? 4500); [now apply IH|].
    apply in_or_app. right. now apply IH.
Qed.

Section TranslatorExtras.
Variable E : env.
Variables source target : str.

Lemma planned_calls_truthy text :
  blank text = false ->
  Forall (fun c => truthy c = true) (planned_calls text).
Proof.
  intro Hb. unfold planned_calls.
  destruct (4500 <? len text); [apply chunks_from_truthy|].
  constructor; [now apply not_blank_truthy | constructor].
Qed.

(** What [translate_text] adds to the list of submitted texts: a leading
    part of the planned ones, or nothing for a blank text. *)
Lemma translate_text_calls text w :
  exists k,
    calls (snd (translate_text E text source target w))
    = calls w ++ firstn k (if blank text then [] else planned_calls text).
Proof.
  destruct (blank text) eqn:Hb.
  - exists 0%nat. unfold translate_text. rewrite guard_blank, Hb. simpl.
    now rewrite app_nil_r.
  - rewrite (translate_text_run _ _ _ _ _ Hb).
    destruct (google_translator E source target).
    + destruct (translate_all_world E source target (planned_calls text) w)
        as [k Hk].
      exists k.
      destruct (translate_all E source target (planned_calls text) w)
        as [[ts|e] w']; simpl in *; now rewrite Hk.
    + exists 0%nat. simpl. now rewrite app_nil_r.
Qed.

(** X5: [translate_text] never submits an empty text to the translation
    service: what it adds to the submitted texts are texts with at least
    one character. *)
Theorem translate_text_submits_no_empty_text text w :
  exists added,
    calls (snd (translate_text E text source target w)) = calls w ++ added /\
    Forall (fun c => c <> []) added.
Proof.
  destruct (translate_text_calls text w) as [k Hk].
  eexists. split; [exact Hk|].
  destruct (blank text) eqn:Hb.
  - rewrite firstn_nil. constructor.
  - apply Forall_forall. intros c Hc.
    apply in_firstn in Hc.
    pose proof (planned_calls_truthy text Hb) as Hp.
    rewrite Forall_forall in Hp. specialize (Hp _ Hc).
    intros ->. discriminate.
Qed.

(** X6: a result that is not empty means that nothing went wrong: every
    planned text was submitted, in order, and no warning was printed. *)
Theorem translate_text_nonempty_result text w r w' :
  translate_text E text source target w = (Ret r, w') ->
  r <> [] ->
  calls w' = calls w ++ planned_calls text /\
  stdout w' = stdout w.
Proof.
  intros Hrun Hr.
  destruct (blank text) eqn:Hb.
  - unfold translate_text in Hrun. rewrite guard_blank, Hb in Hrun.
    injection Hrun as <- <-. contradiction.
  - rewrite (translate_text_run _ _ _ _ _ Hb) in Hrun.
    destruct (google_translator E source target);
      [|injection Hrun as <- <-; contradiction].
    destruct (translate_all E source target (planned_calls text) w)
      as [[ts|e] w1] eqn:Hall;
      [|injection Hrun as <- <-; contradiction].
    injection Hrun as <- <-.
    apply translate_all_ok in Hall. destruct Hall as [-> _].
    split; reflexivity.
Qed.

(** X7: no unit is ever cut.  When a long text is translated with a
    result that is not empty, a unit of 4500 characters or more was
    submitted whole, as a chunk of its own, over the limit the chunking
    is meant to keep. *)
Theorem oversized_unit_submitted_whole text u w r w' :
  4500 < len text ->
  In u (sentences text) ->
  4500 <= len u ->
  translate_text E text source target w = (Ret r, w') ->
  r <> [] ->
  In u (calls w').
Proof.
  intros Hlen Hin Hbig Hrun Hr.
  assert (Hcalls : calls w' = calls w ++ planned_calls text).
  { destruct (blank text) eqn:Hb.
    - unfold translate_text in Hrun. rewrite guard_blank, Hb in Hrun.
      injection Hrun as <- <-. contradiction.
    - rewrite (translate_text_run _ _ _ _ _ Hb) in Hrun.
      destruct (google_translator E source target);
        [|injection Hrun as <- <-; contradiction].
      destruct (translate_all E source target (planned_calls text) w)
        as [[ts|e] w1] eqn:Hall;
        [|injection Hrun as <- <-; contradiction].
      injection Hrun as <- <-.
      apply translate_all_ok in Hall. now destruct Hall as [-> _]. }
  rewrite Hcalls. apply in_or_app. right. unfold planned_calls.
  apply Z.ltb_lt in Hlen. rewrite Hlen.
  now apply chunks_from_oversized.
Qed.

(** X8: a long text never costs more calls than it has units: chunking
    only ever merges, and a failure only ever stops. *)
Theorem translate_text_at_most_one_call_per_unit text w :
  4500 < len text ->
  len (calls (snd (translate_text E text source target w)))
  <= len (calls w) + len (sentences text).
Proof.
  intro Hlen.
  destruct (translate_text_calls text w) as [k Hk]. rewrite Hk, len_app.
  assert (Hfirst : forall l : list str, len (firstn k l) <= len l).
  { intro l. unfold len. rewrite length_firstn. lia. }
  destruct (blank text).
  - rewrite firstn_nil. pose proof (len_nonneg (sentences text)).
    change (len (@nil str)) with 0. lia.
  - specialize (Hfirst (planned_calls text)).
    unfold planned_calls in *. apply Z.ltb_lt in Hlen. rewrite Hlen in *.
    pose proof (chunks_from_count [] (sentences text)) as Hc.
    simpl in Hc. unfold chunks in *. lia.
Qed.

End TranslatorExtras.


(** ** More on language detection *)

Lemma filter_cjk_non_space text :
  filter is_cjk (filter non_space text) = filter is_cjk text.
Proof.
  induction text as [|c rest IH]; [reflexivity|]. simpl.
  destruct (non_space c) eqn:Hn; simpl.
  - now rewrite IH.
  - destruct (is_cjk c) eqn:Hc; [|exact IH].
    apply cjk_non_space in Hc. rewrite Hc in Hn. discriminate.
Qed.

(** X9: [detect_language] does not see the space character: two texts
    that agree once their spaces (U+0020) are taken out are classified
    alike. *)
Theorem detect_language_ignores_spaces text1 text2 :
  filter non_space text1 = filter non_space text2 ->
  detect_language text1 = detect_language text2.
Proof.
  intro H. unfold detect_language. rewrite !replace_space.
  rewrite <- (filter_cjk_non_space text1), <- (filter_cjk_non_space text2).
  now rewrite H.
Qed.

(** X10: a text without any character of U+4E00..U+9FFF is classified
    ['en'], whatever else it holds and however long it is. *)
Theorem detect_language_without_cjk text :
  forallb (fun c => negb (is_cjk c)) text = true ->
  detect_language text = lit "en".
Proof.
  intro H. unfold detect_language.
  assert (Hnone : filter is_cjk text = []).
  { induction text as [|c rest IH]; [reflexivity|]. simpl in *.
    apply andb_true_iff in H. destruct H as [Hc Hrest].
    apply negb_true_iff in Hc. rewrite Hc. now apply IH. }
  rewrite Hnone.
  destruct (len (replace (lit " ") [] text) =? 0); [reflexivity|].
  change (len (@nil char)) with 0.
  unfold b64_div. simpl (0 =? 0). rewrite float_0_3_value. reflexivity.
Qed.

(** A quotient of equal lengths is exactly one. *)
Lemma b64_div_self t : 0 < t -> b64_div t t = B64 (2 ^ 52) (-52).
Proof.
  intro Ht. unfold b64_div, binade.
  destruct (Z.eqb_spec t 0) as [->|_]; [lia|].
  rewrite Z.sub_diag. change (- 0) with 0. change (pow2 0) with 1.
  rewrite Z.leb_refl. change (pow2 (52 - 0)) with (2 ^ 52).
  change (pow2 (0 - 52)) with 1. rewrite Z.mul_1_r.
  unfold div_rne. rewrite (Z.mul_comm t), Z.div_mul, Z.mod_mul by lia.
  change (2 * 0) with 0.
  destruct (Z.ltb_spec 0 t); [reflexivity | lia].
Qed.

Lemma filter_all {A : Type} (f : A -> bool) (l : list A) :
  forallb f l = true -> filter f l = l.
Proof.
  induction l as [|x l IH]; [reflexivity|]. simpl. intro H.
  apply andb_true_iff in H. destruct H as [Hx Hl].
  rewrite Hx. f_equal. now apply IH.
Qed.

(** X11: a text whose characters other than the space all lie in
    U+4E00..U+9FFF, and which has at least one, is classified ['zh'],
    however long it is. *)
Theorem detect_language_all_cjk text :
  filter non_space text <> [] ->
  forallb is_cjk (filter non_space text) = true ->
  detect_language text = lit "zh".
Proof.
  intros Hne Hall. unfold detect_language. rewrite replace_space.
  rewrite <- (filter_cjk_non_space text), (filter_all _ _ Hall).
  assert (Hpos : 0 < len (filter non_space text)).
  { destruct (filter non_space text); [contradiction|].
    rewrite len_cons. pose proof (len_nonneg l). lia. }
  destruct (Z.eqb_spec (len (filter non_space text)) 0); [lia|].
  rewrite (b64_div_self _ Hpos), float_0_3_value. reflexivity.
Qed.

(** ** More on splitting and replacing *)

(** [sep.join(s.split(sep))] is [s]. *)
Lemma join_split_char sep s : join [sep] (split_char sep s) = s.
Proof.
  induction s as [|c s IH]; [reflexivity|]. simpl split_char.
  destruct (N.eqb_spec c sep) as [->|Hne].
  - pose proof (split_char_nonempty sep s) as Hn.
    destruct (split_char sep s) as [|u us]; [contradiction|].
    change (join [sep] ([] :: u :: us)) with (sep :: join [sep] (u :: us)).
    now rewrite IH.
  - rewrite join_push_front by apply split_char_nonempty. now rewrite IH.
Qed.

Lemma split_char_no_sep sep s :
  Forall (fun piece => ~ In sep piece) (split_char sep s).
Proof.
  induction s as [|c s IH]; simpl.
  - constructor; [intros [] | constructor].
  - destruct (N.eqb_spec c sep) as [->|Hne].
    + constructor; [intros [] | exact IH].
    + destruct (split_char sep s) as [|u us]; simpl.
      * constructor; [|constructor]. intros [H|[]]. now apply Hne.
      * inversion IH as [|? ? Hu Hus]; subst.
        constructor; [|exact Hus]. intros [H|H]; [now apply Hne | now apply Hu].
Qed.

(** Replacing one character by another is a character-wise substitution. *)
Lemma replace_char c d s :
  replace [c] [d] s = map (fun x => if N.eqb c x then d else x) s.
Proof.
  unfold replace. induction s as [|x rest IH]; [reflexivity|].
  change (replace_from [c] [d] 0 (x :: rest))
    with (if N.eqb c x && true
          then d :: replace_from [c] [d] 0 rest
          else x :: replace_from [c] [d] 0 rest).
  rewrite andb_true_r, IH. simpl. destruct (N.eqb c x); reflexivity.
Qed.

Section FetcherExtras.
Variable E : env.

(** What holds of every record a loop completes holds of its result. *)
Lemma completed_Forall {A R : Type} (f : A -> M world R) (P : R -> Prop)
    items w :
  (forall x w0 r w1, f x w0 = (Ret r, w1) -> P r) ->
  Forall P (completed f items w).
Proof.
  intro Hf. unfold completed.
  revert w; induction items as [|x rest IH]; intro w; simpl; [constructor|].
  destruct (f x w) as [[r|e] w1] eqn:Hx; simpl; [|constructor].
  specialize (IH w1).
  destruct (collect f rest w1) as [[rs err] w2]. simpl in *.
  constructor; [eapply Hf; exact Hx | exact IH].
Qed.

Lemma completed_length {A R : Type} (f : A -> M world R) items w :
  (length (completed f items w) <= length items)%nat.
Proof.
  unfold completed.
  revert w; induction items as [|x rest IH]; intro w; simpl; [lia|].
  destruct (f x w) as [[r|e] w1]; simpl; [|lia].
  specialize (IH w1).
  destruct (collect f rest w1) as [[rs err] w2]. simpl in *. lia.
Qed.

(** *** Repositories *)

Lemma py_item_lookup pairs key v :
  py_item (PDict pairs) key = Ret v -> lookup key pairs = Some v.
Proof.
  simpl. destruct (lookup key pairs); intro H; [now injection H as -> | discriminate].
Qed.

(** X12: a repository record is built only from an item that has the four
    keys the script indexes, and it carries their values as they are, of
    whatever type; the creation date alone is cut to its first 10
    elements. *)
Theorem repo_of_fields item r w w' :
  repo_of E item w = (Ret r, w') ->
  exists pairs created,
    item = PDict pairs /\
    lookup (lit "full_name") pairs = Some (repo_name r) /\
    lookup (lit "stargazers_count") pairs = Some (repo_stars r) /\
    lookup (lit "html_url") pairs = Some (repo_url r) /\
    lookup (lit "created_at") pairs = Some created /\
    py_slice_to 10 created = Ret (repo_created_at r).
Proof.
  intro H. unfold repo_of in H.
  destruct item as [| | | | |pairs];
    try (cbv [bind lift py_get] in H; discriminate H).
  cbv [bind lift ret] in H.
  destruct (py_item (PDict pairs) (lit "created_at")) as [created|e]
    eqn:Hcreated.
  - exists pairs, created.
    repeat match type of H with
           | context [match ?x with _ => _ end] =>
               destruct x eqn:?; try discriminate H
           end;
      injection H as <- <-; simpl;
      repeat split; try (apply py_item_lookup; assumption); assumption.
  - exfalso.
    repeat match type of H with
           | context [match ?x with _ => _ end] =>
               destruct x eqn:?; try discriminate H
           end.
Qed.

(** X13: an item whose description is missing, [null] or empty gives a
    record with both descriptions empty, and the translation service is
    not called for it. *)
Theorem repo_of_without_description pairs r w w' :
  repo_of E (PDict pairs) w = (Ret r, w') ->
  py_truthy match lookup (lit "description") pairs with
            | Some v => v
            | None => PStr []
            end = false ->
  w' = w /\ repo_description_en r = PStr [] /\ repo_description_zh r = [].
Proof.
  intros H Hd. unfold repo_of in H.
  cbv [bind lift ret py_get py_item] in H. rewrite Hd in H. simpl in H.
  repeat match type of H with
         | context [match ?x with _ => _ end] =>
             destruct x eqn:?; try discriminate H
         end;
    injection H as <- <-; repeat split.
Qed.

Lemma slice_to_length {A : Type} n (l : list A) :
  0 <= n -> len (slice_to n l) <= n.
Proof.
  intro Hn. unfold slice_to. apply Z.leb_le in Hn. rewrite Hn.
  apply Z.leb_le in Hn. unfold len.
  pose proof (firstn_le_length (Z.to_nat n) l). lia.
Qed.

Lemma github_items_length days topic max_results items :
  github_items E days topic max_results = Ret items ->
  0 <= max_results ->
  len items <= max_results.
Proof.
  unfold github_items. intros H Hn.
  repeat match type of H with
         | context [match ?x with _ => _ end] =>
             destruct x eqn:?; try discriminate H
         end.
  match goal with
  | Hs : py_slice_to _ ?v = Ret ?v' |- _ =>
      destruct v; try discriminate Hs; injection Hs as <-
  end; simpl in H; injection H as <-; unfold len in *;
    rewrite ?length_map; now apply slice_to_length.
Qed.

(** X14: [fetch_github_trending] never returns more repositories than
    [max_results], whatever the service sends. *)
Theorem fetch_github_trending_cap days topic max_results w rs w' :
  fetch_github_trending E days topic max_results w = (Ret rs, w') ->
  0 <= max_results ->
  len rs <= max_results.
Proof.
  intros Hrun Hn.
  destruct (fetch_github_trending_run E days topic max_results w)
    as [w1 Hw1].
  rewrite Hw1 in Hrun. injection Hrun as <- <-.
  destruct (github_items E days topic max_results) as [items|e] eqn:Hitems.
  - pose proof (github_items_length _ _ _ _ Hitems Hn).
    pose proof (completed_length (repo_of E) items
                  (printed (MsgGithubSearching days) w)).
    unfold len in *. lia.
  - unfold len; simpl; lia.
Qed.

End FetcherExtras.

Section FetcherExtras2.
Variable E : env.

(** *** Quotes *)

(** X15: the language of a quote record is the one the quote declares
    and, when it declares none, the one [detect_language] finds in its
    content; the author is the one given or the default of two
    characters; the content is a string. *)
Theorem quote_of_fields raw q w w' :
  quote_of E raw w = (Ret q, w') ->
  exists pairs content,
    raw = PDict pairs /\
    quote_content q = PStr content /\
    quote_content q = match lookup (lit "content") pairs with
                      | Some v => v
                      | None => PStr []
                      end /\
    quote_language q = match lookup (lit "language") pairs with
                       | Some v => v
                       | None => PStr (detect_language content)
                       end /\
    quote_author q = match lookup (lit "author") pairs with
                     | Some v => v
                     | None => PStr [20314%N; 21517%N]
                     end.
Proof.
  intro H. unfold quote_of in H.
  destruct raw as [| | | | |pairs];
    try (cbv [bind lift py_get] in H; discriminate H).
  cbv [bind lift ret py_get] in H.
  destruct (match lookup (lit "content") pairs with
            | Some v => v
            | None => PStr []
            end) as [| | |content| |] eqn:Hcontent;
    try (simpl in H; discriminate H).
  exists pairs, content. rewrite Hcontent.
  simpl detect_language_value in H. cbv iota in H.
  repeat match type of H with
         | context [match ?x with _ => _ end] =>
             destruct x eqn:?; try discriminate H
         end;
    injection H as <- <-; simpl; repeat split; reflexivity.
Qed.

(** X16: a quote is translated only when its language is ['en']: for any
    other language the translation is empty and the translation service
    is not called. *)
Theorem quote_of_other_language raw q w w' :
  quote_of E raw w = (Ret q, w') ->
  py_eq_str (quote_language q) (lit "en") = false ->
  quote_translation q = [] /\ w' = w.
Proof.
  intros H Hlang. unfold quote_of in H.
  destruct raw as [| | | | |pairs];
    try (cbv [bind lift py_get] in H; discriminate H).
  cbv [bind lift ret py_get] in H.
  destruct (detect_language_value _) as [detected|e]; [|discriminate H].
  destruct (py_eq_str _ (lit "en")) eqn:Hen.
  - exfalso.
    destruct (translate_text_value E _ w) as [[t|e] w1];
      [|discriminate H].
    injection H as <- <-. simpl in Hlang. rewrite Hen in Hlang.
    discriminate.
  - injection H as <- <-. split; reflexivity.
Qed.

(** The language is detected before the declared one is looked up, so a
    quote whose content is not a string raises, declared language or
    not. *)
Lemma quote_of_content_not_string pairs v w :
  lookup (lit "content") pairs = Some v ->
  (forall s, v <> PStr s) ->
  quote_of E (PDict pairs) w = (Raise TypeError, w).
Proof.
  intros Hc Hv. unfold quote_of. cbv [bind lift py_get]. rewrite Hc.
  destruct v; try reflexivity. now contradiction (Hv s).
Qed.

Lemma completed_stops {A B : Type} (f : A -> M world B) good bad rest w e :
  (forall w0, f bad w0 = (Raise e, w0)) ->
  (length (completed f (good ++ bad :: rest) w) <= length good)%nat.
Proof.
  intro Hbad. unfold completed.
  revert w; induction good as [|x good IH]; intro w; simpl.
  - now rewrite Hbad.
  - destruct (f x w) as [[r|e'] w1]; simpl; [|lia].
    specialize (IH w1).
    destruct (collect f (good ++ bad :: rest) w1) as [[rs err] w2].
    simpl in *. lia.
Qed.

(** X17: [detect_language] runs on the content of every quote, declared
    language or not, so a quote whose content is not a string ends the
    loading: the quotes before it are returned at most, none after it. *)
Theorem load_quotes_stops_at_bad_content good pairs v rest w qs w' :
  quotes_file E = Some (Ret (PList (good ++ PDict pairs :: rest))) ->
  lookup (lit "content") pairs = Some v ->
  (forall s, v <> PStr s) ->
  load_quotes E w = (Ret qs, w') ->
  len qs <= len good.
Proof.
  intros Hfile Hc Hv Hrun.
  destruct (load_quotes_run E w) as [w1 Hw1].
  rewrite Hw1, Hfile in Hrun. simpl in Hrun. injection Hrun as <- <-.
  unfold len. apply inj_le.
  apply completed_stops with (e := TypeError).
  intro w0. now apply quote_of_content_not_string with (v := v).
Qed.

(** *** Papers *)

(** A paper is its entry with the annotated title and the translated
    abstract added. *)
Lemma paper_of_run result p w w' :
  paper_of E result w = (Ret p, w') ->
  exists title_with_ipa abstract_zh,
    p = Paper (ar_title result) title_with_ipa
              (replace [10%N] [32%N] (ar_summary result)) abstract_zh
              (firstn 3 (ar_authors result)) (ar_published result)
              (ar_entry_id result) (ar_categories result).
Proof.
  intro H. unfold paper_of in H. cbv [bind ret] in H.
  destruct (add_ipa_to_text E (ar_title result) w) as [[t|e] w1];
    [|discriminate H].
  destruct (translate_text_default E _ w1) as [[z|e] w2]; [|discriminate H].
  injection H as <- <-. now exists t, z.
Qed.

Lemma completed_papers_entries results w :
  Forall2 (fun entry p =>
             exists title_with_ipa abstract_zh,
               p = Paper (ar_title entry) title_with_ipa
                         (replace [10%N] [32%N] (ar_summary entry))
                         abstract_zh
                         (firstn 3 (ar_authors entry)) (ar_published entry)
                         (ar_entry_id entry) (ar_categories entry))
          results (completed (paper_of E) results w).
Proof.
  unfold completed.
  revert w; induction results as [|x rest IH]; intro w; [constructor|].
  simpl. destruct (paper_of_total E x w) as [p [w2 Hp]]. rewrite Hp.
  specialize (IH w2).
  destruct (collect (paper_of E) rest w2) as [[rs err] w3]. simpl in *.
  constructor; [now apply (paper_of_run _ _ _ _ Hp) | exact IH].
Qed.


(** X19: [fetch_arxiv_papers] returns one paper per entry the feed
    yielded, in the order of the feed; each keeps the title, link, date
    and categories of its entry, the first 3 of its authors, and its
    summary with every line break turned into a space. *)
Theorem fetch_arxiv_papers_entries categories max_results w ps w' :
  fetch_arxiv_papers E categories max_results w = (Ret ps, w') ->
  Forall2 (fun entry p =>
             paper_title_en p = ar_title entry /\
             paper_url p = ar_entry_id entry /\
             paper_published p = ar_published entry /\
             paper_categories p = ar_categories entry /\
             paper_authors p = firstn 3 (ar_authors entry) /\
             paper_abstract_en p
             = map (fun c => if N.eqb 10 c then 32%N else c)
                   (ar_summary entry))
          (fst (arxiv_results E (arxiv_query categories) max_results)) ps.
Proof.
  intro Hrun.
  destruct (fetch_arxiv_papers_run E categories max_results w) as [w1 Hw1].
  rewrite Hw1 in Hrun. injection Hrun as <- <-.
  eapply Forall2_impl; [|apply completed_papers_entries].
  intros entry p [t [z ->]].
  cbn [paper_title_en paper_url paper_published paper_categories
       paper_authors paper_abstract_en].
  rewrite replace_char. repeat split.
Qed.

(** *** Lyrics *)

Lemma lyric_of_run file l w w' :
  lyric_of file w = (Ret l, w') ->
  w' = w /\ lyric_name l = fst file /\ snd file = Ret (lyric_content l) /\
  lyric_lines l = split_char 10%N (lyric_content l).
Proof.
  unfold lyric_of. cbv [bind lift ret]. destruct (snd file) as [content|e];
    intro H; [|discriminate H].
  injection H as <- <-. repeat split.
Qed.

(** X20: for every song [load_lyrics] returns, the lines joined with line
    breaks give back the content, and no line holds a line break. *)
Theorem load_lyrics_lines w ls w' :
  load_lyrics E w = (Ret ls, w') ->
  Forall (fun l =>
            join [10%N] (lyric_lines l) = lyric_content l /\
            Forall (fun line => ~ In 10%N line) (lyric_lines l))
         ls.
Proof.
  intro Hrun. destruct (load_lyrics_run E w) as [w1 Hw1].
  rewrite Hw1 in Hrun. injection Hrun as <- <-.
  destruct (lyrics_dir E) as [[txt_files|e]|]; try constructor.
  apply completed_Forall. intros file w0 l w2 Hl.
  apply lyric_of_run in Hl. destruct Hl as [_ [_ [_ ->]]].
  split; [apply join_split_char | apply split_char_no_sep].
Qed.

Lemma collect_lyrics_world files w :
  snd (collect lyric_of files w) = w.
Proof.
  revert w; induction files as [|file rest IH]; intro w; [reflexivity|].
  simpl. destruct (lyric_of file w) as [[l|e] w1] eqn:Hl.
  - apply lyric_of_run in Hl. destruct Hl as [-> _].
    specialize (IH w). destruct (collect lyric_of rest w) as [[rs err] w2].
    exact IH.
  - unfold lyric_of in Hl. cbv [bind lift ret] in Hl.
    destruct (snd file); [discriminate Hl | now injection Hl as _ <-].
Qed.

(** *** Loaders that do not translate *)

(** X21: [load_mental_models], [load_words] and [load_lyrics] never call
    the translation service. *)
Theorem loaders_do_not_translate w :
  calls (snd (load_mental_models E w)) = calls w /\
  calls (snd (load_words E w)) = calls w /\
  calls (snd (load_lyrics E w)) = calls w.
Proof.
  split; [|split].
  - unfold load_mental_models, with_local, try_except.
    cbv [bind lift set_local zoom print get_local printed].
    destruct (models_file E) as [[models|e]|]; simpl; try reflexivity.
    + destruct (py_len models) as [n|e]; simpl; [reflexivity|].
      destruct e; reflexivity.
    + destruct e; reflexivity.
  - unfold load_words, with_local, try_except.
    cbv [bind lift set_local zoom print get_local printed].
    destruct (words_file E) as [[words|e]|]; simpl; try reflexivity.
    + destruct (py_len words) as [n|e]; simpl; [reflexivity|].
      destruct e; reflexivity.
    + destruct e; reflexivity.
  - unfold load_lyrics, with_local, try_except.
    unfold bind at 1.
    destruct (lyrics_dir E) as [[files|e]|].
    + unfold bind at 1. unfold lift at 1.
      unfold bind at 1. rewrite for_each_append.
      pose proof (collect_lyrics_world files w) as Hw.
      destruct (collect lyric_of files w) as [[ls err] w1].
      simpl in Hw. subst w1.
      destruct err as [e|]; cbv [bind zoom print get_local printed];
        reflexivity.
    + cbv [bind lift zoom print get_local printed]. reflexivity.
    + cbv [bind zoom print get_local printed]. reflexivity.
Qed.

End FetcherExtras2.

(** ** Rendering and the main function *)

Section SiteProperties.
Variable E : env.
Variable R : site_env.

Lemma try_page_run template output failed s w :
  try_except (render_page R template output)
             (fun e => console (failed e)) (s, w)
  = (Ret tt,
     (Site (site_context s)
           (site_written s
            ++ page_written R template output (site_context s))
           (site_console s
            ++ page_printed R template output failed (site_context s)),
      w)).
Proof.
  unfold try_except, render_page, page_written, page_printed, page.
  cbv [bind lift get_context written console]. simpl.
  destruct (get_template R template); simpl;
    [|now rewrite app_nil_r].
  destruct (template_render R template (site_context s)); simpl;
    [|now rewrite app_nil_r].
  destruct (write_text R output _); simpl; [reflexivity|].
  now rewrite app_nil_r.
Qed.

(** [render_templates] from its first line to its last. *)
Lemma render_templates_run s w :
  render_templates R (s, w)
  = match prepare R with
    | Ret css =>
        let c := completed_context R css (site_context s) in
        (Ret tt,
         (Site c
               (site_written s
                ++ page_written R (lit "kindle.html") (lit "kindle.html") c
                ++ page_written R (lit "web.html") (lit "index.html") c)
               (site_console s
                ++ page_printed R (lit "kindle.html") (lit "kindle.html")
                                MsgKindleFailed c
                ++ page_printed R (lit "web.html") (lit "index.html")
                                MsgWebFailed c),
          w))
    | Raise e =>
        (Raise e,
         (Site match dist_mkdir R, jinja_environment R with
               | Ret _, Ret _ =>
                   match style_kindle_css R with
                   | Some (Raise _) =>
                       set_generated_at (now_text R) (site_context s)
                   | kindle =>
                       set_kindle_css
                         match kindle with Some (Ret t) => t | _ => [] end
                         (set_generated_at (now_text R) (site_context s))
                   end
               | _, _ => site_context s
               end
               (site_written s) (site_console s),
          w))
    end.
Proof.
  unfold render_templates, prepare.
  unfold bind at 1. unfold lift at 1.
  destruct (dist_mkdir R) as [[]|e]; [|now destruct s].
  unfold bind at 1. unfold lift at 1.
  destruct (jinja_environment R) as [[]|e]; [|now destruct s].
  unfold bind at 1. unfold set_context at 1. simpl fst. simpl snd.
  unfold bind at 1.
  destruct (style_kindle_css R) as [[kindle|e]|];
    unfold read_css at 1; cbv [lift ret]; try reflexivity.
  - unfold bind at 1. unfold set_context at 1. simpl fst. simpl snd.
    unfold bind at 1.
    destruct (style_web_css R) as [[web|e]|];
      unfold read_css at 1; cbv [lift ret]; try reflexivity.
    + unfold bind at 1. unfold set_context at 1. simpl fst. simpl snd.
      unfold bind at 1. rewrite try_page_run. rewrite try_page_run.
      simpl. now rewrite <- !app_assoc.
    + unfold bind at 1. unfold set_context at 1. simpl fst. simpl snd.
      unfold bind at 1. rewrite try_page_run. rewrite try_page_run.
      simpl. now rewrite <- !app_assoc.
  - unfold bind at 1. unfold set_context at 1. simpl fst. simpl snd.
    unfold bind at 1.
    destruct (style_web_css R) as [[web|e]|];
      unfold read_css at 1; cbv [lift ret]; try reflexivity.
    + unfold bind at 1. unfold set_context at 1. simpl fst. simpl snd.
      unfold bind at 1. rewrite try_page_run. rewrite try_page_run.
      simpl. now rewrite <- !app_assoc.
    + unfold bind at 1. unfold set_context at 1. simpl fst. simpl snd.
      unfold bind at 1. rewrite try_page_run. rewrite try_page_run.
      simpl. now rewrite <- !app_assoc.
Qed.

(** X22: once the output directory, the template environment and the
    stylesheets are in place, [render_templates] returns normally.  Both
    pages are rendered from the same context, the one it received with
    the timestamp and the two stylesheet texts set (the empty string for
    a stylesheet that does not exist); each page is written or given up
    on its own, so a failure of the Kindle page does not keep the web
    page from being written; and the world of the fetchers is left as it
    was. *)
Theorem render_templates_pages s w css :
  prepare R = Ret css ->
  let c := completed_context R css (site_context s) in
  exists s',
    render_templates R (s, w) = (Ret tt, (s', w)) /\
    site_context s' = c /\
    site_written s'
    = site_written s
      ++ page_written R (lit "kindle.html") (lit "kindle.html") c
      ++ page_written R (lit "web.html") (lit "index.html") c.
Proof.
  intros Hprep c. rewrite render_templates_run, Hprep.
  eexists. split; [reflexivity|]. split; reflexivity.
Qed.

(** X23: making the output directory, building the template environment
    and reading a stylesheet that exists are outside every [try]: when
    one of them raises, [render_templates] raises the same exception,
    writes no page and prints nothing. *)
Theorem render_templates_unguarded s w e :
  prepare R = Raise e ->
  exists s',
    render_templates R (s, w) = (Raise e, (s', w)) /\
    site_written s' = site_written s /\
    site_console s' = site_console s.
Proof.
  intro Hprep. rewrite render_templates_run, Hprep.
  eexists. split; [reflexivity|]. split; reflexivity.
Qed.

(** The six sources, read one after the other as [main] does. *)
Lemma sources_run w :
  exists papers w1 repos w2 models w3 quotes w4 lyrics w5 words w6,
    fetch_arxiv_papers E None 3 w = (Ret papers, w1) /\
    fetch_github_trending E 7 (lit "artificial-intelligence") 10 w1
    = (Ret repos, w2) /\
    load_mental_models E w2 = (Ret models, w3) /\
    load_quotes E w3 = (Ret quotes, w4) /\
    load_lyrics E w4 = (Ret lyrics, w5) /\
    load_words E w5 = (Ret words, w6).
Proof.
  destruct (fetch_arxiv_papers_run E None 3 w) as [w1 H1].
  destruct (fetch_github_trending_run E 7 (lit "artificial-intelligence")
              10 w1) as [w2 H2].
  destruct (load_mental_models_run E w2) as [w3 H3].
  destruct (load_quotes_run E w3) as [w4 H4].
  destruct (load_lyrics_run E w4) as [w5 H5].
  destruct (load_words_run E w5) as [w6 H6].
  repeat eexists; eassumption.
Qed.

Lemma main_run s w papers w1 repos w2 models w3 quotes w4 lyrics w5
    words w6 :
  fetch_arxiv_papers E None 3 w = (Ret papers, w1) ->
  fetch_github_trending E 7 (lit "artificial-intelligence") 10 w1
  = (Ret repos, w2) ->
  load_mental_models E w2 = (Ret models, w3) ->
  load_quotes E w3 = (Ret quotes, w4) ->
  load_lyrics E w4 = (Ret lyrics, w5) ->
  load_words E w5 = (Ret words, w6) ->
  main E R (s, w)
  = match render_templates R
            (Site (Context papers repos models quotes lyrics words
                           None None None)
                  (site_written s)
                  (site_console s
                   ++ [MsgDoubleRule; MsgTitle; MsgDoubleRule; MsgEmptyLine;
                       MsgEmptyLine; MsgSingleRule; MsgEmptyLine]),
             w6) with
    | (Ret _, (s', w')) =>
        (Ret tt,
         (Site (site_context s') (site_written s')
               (site_console s'
                ++ [MsgEmptyLine; MsgDoubleRule; MsgFinished;
                    MsgKindleVersion; MsgWebVersion; MsgDoubleRule]),
          w'))
    | (Raise e, sw) => (Raise e, sw)
    end.
Proof.
  intros H1 H2 H3 H4 H5 H6. unfold main.
  cbv [bind console zoom set_context]. simpl.
  rewrite H1. simpl. rewrite H2. simpl. rewrite H3. simpl.
  rewrite H4. simpl. rewrite H5. simpl. rewrite H6. simpl.
  rewrite <- !app_assoc. simpl.
  destruct (render_templates R _) as [[[]|e] [s' w']]; [|reflexivity].
  simpl. now rewrite <- !app_assoc.
Qed.

(** X24: whatever the network, the services and the data files do, [main]
    ends normally as soon as the output directory, the template
    environment and the stylesheets are in place.  The six sources are
    read in the order papers, repositories, models, quotes, lyrics,
    words, each in the world the one before left; the pages are rendered
    from the context that holds what they returned. *)
Theorem main_completes s w css :
  prepare R = Ret css ->
  exists papers w1 repos w2 models w3 quotes w4 lyrics w5 words w6 s',
    fetch_arxiv_papers E None 3 w = (Ret papers, w1) /\
    fetch_github_trending E 7 (lit "artificial-intelligence") 10 w1
    = (Ret repos, w2) /\
    load_mental_models E w2 = (Ret models, w3) /\
    load_quotes E w3 = (Ret quotes, w4) /\
    load_lyrics E w4 = (Ret lyrics, w5) /\
    load_words E w5 = (Ret words, w6) /\
    main E R (s, w) = (Ret tt, (s', w6)) /\
    let c := completed_context R css
               (Context papers repos models quotes lyrics words
                        None None None) in
    site_context s' = c /\
    site_written s'
    = site_written s
      ++ page_written R (lit "kindle.html") (lit "kindle.html") c
      ++ page_written R (lit "web.html") (lit "index.html") c.
Proof.
  intro Hprep.
  destruct (sources_run w)
    as (papers & w1 & repos & w2 & models & w3 & quotes & w4 & lyrics & w5
        & words & w6 & H1 & H2 & H3 & H4 & H5 & H6).
  exists papers, w1, repos, w2, models, w3, quotes, w4, lyrics, w5, words, w6.
  rewrite (main_run s _ _ _ _ _ _ _ _ _ _ _ _ _ H1 H2 H3 H4 H5 H6).
  rewrite render_templates_run, Hprep. simpl.
  eexists. repeat split; try eassumption.
Qed.

(** X25: when the output directory, the template environment or an
    existing stylesheet fails, [main] ends with that exception.  It has
    read the six sources by then; it writes no page and its last lines
    printed are those before the rendering, not the closing ones. *)
Theorem main_aborts s w e :
  prepare R = Raise e ->
  exists s',
    main E R (s, w) = (Raise e, (s', after_sources E w)) /\
    site_written s' = site_written s /\
    site_console s' = site_console s ++ opening_lines.
Proof.
  intro Hprep.
  destruct (sources_run w)
    as (papers & w1 & repos & w2 & models & w3 & quotes & w4 & lyrics & w5
        & words & w6 & H1 & H2 & H3 & H4 & H5 & H6).
  rewrite (main_run s _ _ _ _ _ _ _ _ _ _ _ _ _ H1 H2 H3 H4 H5 H6).
  rewrite render_templates_run, Hprep.
  unfold after_sources. rewrite H1. simpl snd. rewrite H2. simpl snd.
  rewrite H3. simpl snd. rewrite H4. simpl snd. rewrite H5. simpl snd.
  rewrite H6. simpl snd.
  eexists. split; [reflexivity|]. split; reflexivity.
Qed.

End SiteProperties.

(** * Runs on the sample environments *)

Lemma forallb_Forall {A : Type} (f : A -> bool) (P : A -> Prop) (l : list A) :
  (forall x, f x = true -> P x) -> forallb f l = true -> Forall P l.
Proof.
  intros HfP H. rewrite forallb_forall in H. apply Forall_forall.
  intros x Hx. apply HfP, H, Hx.
Qed.

Lemma units_under_limit (units : list str) :
  forallb (fun u => len u <? 4500) units = true ->
  Forall (fun u => len u < 4500) units.
Proof. apply forallb_Forall. intros x Hx. now apply Z.ltb_lt. Qed.


(** C4 at three spaces, a tab and an ideographic space. *)
Lemma translate_text_blank_witness :
  translate_text sample_env [32; 32; 32; 9; 12288]%N (lit "en") (lit "zh-CN")
                 empty_world
  = (Ret [], empty_world).
Proof. apply translate_text_blank. reflexivity. Defined.

(** C5: the translator cannot be built for the language pair; a short
    sentence is then submitted not once but never. *)
Lemma translate_text_no_translator_counterexample :
  let run :=
    translate_text no_translator_env (lit "Stay hungry.") (lit "en")
                   (lit "xx") empty_world in
  blank (lit "Stay hungry.") = false /\
  len (lit "Stay hungry.") <= 4500 /\
  run = (Ret [],
         World [] [MsgTranslateFailed
                     (OtherException (lit "LanguageNotSupportedException"))])
  /\
  len (calls (snd run)) <> 1.
Proof.
  split; [reflexivity|]. split; [vm_compute; discriminate|].
  split; [vm_compute; reflexivity | vm_compute; discriminate].
Qed.

(** C5 as amended, at a short sentence: with the translator built, and
    with a language pair for which it cannot be built. *)
Lemma translate_text_short_witness :
  translate_text sample_env (lit "Stay hungry.") (lit "en") (lit "zh-CN")
                 empty_world
  = (Ret (lit "zh:Stay hungry."), World [lit "Stay hungry."] []) /\
  translate_text no_translator_env (lit "Stay hungry.") (lit "en")
                 (lit "xx") empty_world
  = (Ret [],
     World [] [MsgTranslateFailed
                 (OtherException (lit "LanguageNotSupportedException"))]).
Proof.
  split.
  - apply (proj1 (translate_text_short sample_env (lit "en") (lit "zh-CN")
                    (lit "Stay hungry.") empty_world
                    eq_refl ltac:(vm_compute; discriminate))).
    reflexivity.
  - apply (proj2 (translate_text_short no_translator_env (lit "en")
                    (lit "xx") (lit "Stay hungry.") empty_world
                    eq_refl ltac:(vm_compute; discriminate))).
    reflexivity.
Defined.

(** C2 at a text of two chunks whose second chunk is refused. *)
Lemma translate_text_failure_witness :
  translate_text refusing_env two_chunk_text (lit "en") (lit "zh-CN")
                 empty_world
  = (Ret [],
     World (calls empty_world
            ++ [repeat 97%N 3000 ++ [46%N]] ++ [repeat 98%N 3000])
           (stdout empty_world
            ++ [MsgTranslateFailed (OtherException (lit "refused"))])).
Proof.
  apply (proj2 (proj2 (translate_text_failure refusing_env (lit "en")
                         (lit "zh-CN") two_chunk_text empty_world))
           [repeat 97%N 3000 ++ [46%N]] (repeat 98%N 3000) []
           [lit "zh:" ++ repeat 97%N 3000 ++ [46%N]]
           (World [repeat 97%N 3000 ++ [46%N]] []));
    vm_compute; reflexivity.
Defined.

(** C1: 4501 characters in units of 2, 2 and 4495 characters are
    submitted as one chunk of 4499 characters, not as two chunks or
    more. *)
Lemma translate_text_single_chunk_counterexample :
  let run :=
    translate_text sample_env one_chunk_text (lit "en") (lit "zh-CN")
                   empty_world in
  4500 < len one_chunk_text /\
  blank one_chunk_text = false /\
  Forall (fun u => len u < 4500) (sentences one_chunk_text) /\
  run = (Ret (lit "zh:a.b." ++ repeat 99%N 4495),
         World [lit "a.b." ++ repeat 99%N 4495] []) /\
  len (calls (snd run)) < 2.
Proof.
  split; [reflexivity|]. split; [reflexivity|]. split; [|split].
  - apply units_under_limit. vm_compute. reflexivity.
  - vm_compute. reflexivity.
  - vm_compute. reflexivity.
Qed.

(** A unit of exactly 4500 characters is a chunk of its own: 4499 letters
    and a period, then one more letter. *)
Example chunk_of_4500_characters :
  let text := repeat 97%N 4499 ++ lit ". b" in
  len text = 4502 /\
  map (@len char) (sentences text) = [4500; 1] /\
  map (@len char) (chunks (sentences text)) = [4500; 1].
Proof. repeat split. Qed.

(** C1 as amended, at a text of two units of 3001 and 3000 characters. *)
Lemma translate_text_chunked_witness :
  translate_text sample_env two_chunk_text (lit "en") (lit "zh-CN")
                 empty_world
  = (Ret (join (lit " ") [lit "zh:" ++ repeat 97%N 3000 ++ [46%N];
                          lit "zh:" ++ repeat 98%N 3000]),
     World [repeat 97%N 3000 ++ [46%N]; repeat 98%N 3000] []) /\
  2 <= len (chunks (sentences two_chunk_text)).
Proof.
  destruct (translate_text_chunked sample_env (lit "en") (lit "zh-CN")
              two_chunk_text empty_world)
    as [_ [_ [Hunits Hrun]]]; [reflexivity | reflexivity |].
  split.
  - apply Hrun; [reflexivity | vm_compute; reflexivity].
  - apply Hunits; [apply units_under_limit|]; vm_compute;
      [reflexivity | discriminate].
Defined.

(** C6 at a word of six letters and a comma. *)
Lemma add_ipa_to_word_unchanged_witness :
  add_ipa_to_word sample_env (lit "models,") tt = (Ret (lit "models,"), tt).
Proof.
  apply (proj1 (proj2 (add_ipa_to_word_unchanged sample_env unit
                                                  (lit "models,") tt))).
  vm_compute. discriminate.
Defined.

(** C7: the annotation of "algorithm" is not the documented one. *)
Lemma add_ipa_to_word_double_quotes_counterexample :
  7 < len (sub_non_alpha (lit "algorithm")) /\
  ipa_convert sample_env (lower (sub_non_alpha (lit "algorithm")))
  = Ret ipa_algorithm /\
  ipa_algorithm <> lower (sub_non_alpha (lit "algorithm")) /\
  add_ipa_to_word sample_env (lit "algorithm") tt
  <> (Ret (lit "algorithm" ++ documented_annotation ipa_algorithm), tt).
Proof.
  split; [reflexivity|]. split; [reflexivity|].
  split; intro H; vm_compute in H; discriminate H.
Qed.

(** C7 as amended, at "Algorithm," with its capital and its comma. *)
Lemma add_ipa_to_word_annotated_witness :
  add_ipa_to_word sample_env (lit "Algorithm,") tt
  = (Ret (lit "Algorithm," ++ lit "<sup class='ipa'>/" ++ ipa_algorithm
              ++ lit "/</sup>"), tt).
Proof.
  apply add_ipa_to_word_annotated.
  - reflexivity.
  - reflexivity.
  - discriminate.
  - intro H. vm_compute in H. discriminate H.
Defined.

(** C8 at "AI " followed by four characters of the CJK block. *)
Lemma detect_language_threshold_witness :
  let text := (lit "AI " ++ [20154; 24037; 26234; 33021])%N in
  let cjk := len (filter is_cjk text) in
  let total := len (filter non_space text) in
  (detect_language text = lit "zh" <->
   0 < total /\ (3 # 10 < cjk # Z.to_pos total)%Q) /\
  (detect_language text <> lit "zh" -> detect_language text = lit "en") /\
  (total = 0 -> detect_language text = lit "en").
Proof.
  apply detect_language_threshold. vm_compute. discriminate.
Defined.





(** C9: for a repository without a primary language the service sends
    ["language": null]; the record then holds [None] in its language
    field, not the text "Unknown". *)
Theorem fetch_github_trending_null_language :
  fetch_github_trending no_language_env 7 (lit "artificial-intelligence") 10
                        empty_world
  = (Ret [Repo (PStr (lit "octo/agent")) (PInt 120) (PStr []) []
               (PStr (lit "https://github.com/octo/agent"))
               PNone (PStr (lit "2026-01-02"))],
     World [] [MsgGithubSearching 7; MsgGithubDone 1]).
Proof. vm_compute. reflexivity. Qed.

(** * Runs for the further properties *)

Lemma words_short (words : list str) :
  forallb (fun w => len (sub_non_alpha w) <=? 7) words = true ->
  Forall (fun w => len (sub_non_alpha w) <= 7) words.
Proof. apply forallb_Forall. intros x Hx. now apply Z.leb_le. Qed.

(** X2 at "Algorithm," and "algorithm". *)
Lemma add_ipa_to_word_same_letters_witness :
  exists suffix,
    add_ipa_to_word sample_env (lit "Algorithm,") tt
    = (Ret (lit "Algorithm," ++ suffix), tt) /\
    add_ipa_to_word sample_env (lit "algorithm") tt
    = (Ret (lit "algorithm" ++ suffix), tt).
Proof. apply add_ipa_to_word_same_letters. reflexivity. Defined.

(** X3 at a line with a tab, doubled and outer spaces. *)
Lemma add_ipa_to_text_short_words_witness :
  add_ipa_to_text sample_env (lit "  Less  is" ++ [9%N] ++ lit "more ") tt
  = (Ret (lit "Less is more"), tt).
Proof.
  apply (add_ipa_to_text_short_words sample_env unit
           (lit "  Less  is" ++ [9%N] ++ lit "more ") tt).
  apply words_short. reflexivity.
Defined.

(** X4 at the same line. *)
Lemma add_ipa_to_text_idempotent_witness :
  add_ipa_to_text sample_env (lit "Less is more") tt
  = (Ret (lit "Less is more"), tt).
Proof.
  apply (add_ipa_to_text_idempotent sample_env unit
           (lit "  Less  is" ++ [9%N] ++ lit "more ") (lit "Less is more")
           tt).
  - apply words_short. reflexivity.
  - reflexivity.
Defined.

(** X6 at a short sentence. *)
Lemma translate_text_nonempty_result_witness :
  calls (World [lit "Stay hungry."] [])
  = calls empty_world ++ planned_calls (lit "Stay hungry.") /\
  stdout (World [lit "Stay hungry."] []) = stdout empty_world.
Proof.
  apply (translate_text_nonempty_result sample_env (lit "en") (lit "zh-CN")
           (lit "Stay hungry.") empty_world (lit "zh:Stay hungry.")).
  - reflexivity.
  - discriminate.
Defined.

(** X7 at a text whose third unit has 4504 characters. *)
Lemma oversized_unit_submitted_whole_witness :
  In (lit "a.a." ++ repeat 122%N 4500)
     (calls (World [lit "a.a."; lit "a.a." ++ repeat 122%N 4500] [])).
Proof.
  apply (oversized_unit_submitted_whole sample_env (lit "en") (lit "zh-CN")
           echo_text (lit "a.a." ++ repeat 122%N 4500) empty_world
           (lit "zh:a.a. zh:a.a." ++ repeat 122%N 4500)).
  - reflexivity.
  - vm_compute. do 2 right. left. reflexivity.
  - vm_compute. discriminate.
  - vm_compute. reflexivity.
  - discriminate.
Defined.

(** X8 at a text of two units whose second chunk is refused. *)
Lemma translate_text_at_most_one_call_per_unit_witness :
  len (calls (snd (translate_text refusing_env two_chunk_text (lit "en")
                                  (lit "zh-CN") empty_world)))
  <= len (calls empty_world) + len (sentences two_chunk_text).
Proof.
  apply translate_text_at_most_one_call_per_unit. reflexivity.
Defined.

(** X9 at a phrase with and without its spaces. *)
Lemma detect_language_ignores_spaces_witness :
  detect_language (lit "to be or not") = detect_language (lit "tobeornot").
Proof. apply detect_language_ignores_spaces. reflexivity. Defined.

(** X10 at a sentence with accents and punctuation. *)
Lemma detect_language_without_cjk_witness :
  detect_language (lit "d" ++ [233%N] ++ lit "j" ++ [224%N] ++ lit " vu!")
  = lit "en".
Proof. apply detect_language_without_cjk. reflexivity. Defined.

(** X11 at four characters with a space between them. *)
Lemma detect_language_all_cjk_witness :
  detect_language [23398%N; 32780%N; 32%N; 19981%N; 21388%N] = lit "zh".
Proof.
  apply detect_language_all_cjk; [discriminate | reflexivity].
Defined.

(** X12 at the sample repository. *)
Lemma repo_of_fields_witness :
  exists pairs created,
    sample_item (PStr (lit "Python")) = PDict pairs /\
    lookup (lit "full_name") pairs
    = Some (repo_name (sample_repo (PStr (lit "Python")))) /\
    lookup (lit "stargazers_count") pairs
    = Some (repo_stars (sample_repo (PStr (lit "Python")))) /\
    lookup (lit "html_url") pairs
    = Some (repo_url (sample_repo (PStr (lit "Python")))) /\
    lookup (lit "created_at") pairs = Some created /\
    py_slice_to 10 created
    = Ret (repo_created_at (sample_repo (PStr (lit "Python")))).
Proof.
  apply (repo_of_fields sample_env (sample_item (PStr (lit "Python")))
           (sample_repo (PStr (lit "Python"))) empty_world empty_world).
  reflexivity.
Defined.

(** X13 at the sample repository, whose description is [null]. *)
Lemma repo_of_without_description_witness :
  snd (repo_of sample_env (sample_item (PStr (lit "Python"))) empty_world)
  = empty_world /\
  repo_description_en (sample_repo (PStr (lit "Python"))) = PStr [] /\
  repo_description_zh (sample_repo (PStr (lit "Python"))) = [].
Proof.
  apply (repo_of_without_description sample_env
           [(lit "full_name", PStr (lit "octo/agent"));
            (lit "stargazers_count", PInt 120);
            (lit "description", PNone);
            (lit "html_url", PStr (lit "https://github.com/octo/agent"));
            (lit "language", PStr (lit "Python"));
            (lit "created_at", PStr (lit "2026-01-02T03:04:05Z"))]
           (sample_repo (PStr (lit "Python"))) empty_world
           (snd (repo_of sample_env (sample_item (PStr (lit "Python")))
                         empty_world)));
    reflexivity.
Defined.

(** X14 at a search of one repository. *)
Lemma fetch_github_trending_cap_witness :
  len (returned [] (fetch_github_trending sample_env 7
                      (lit "artificial-intelligence") 10 empty_world))
  <= 10.
Proof.
  apply (fetch_github_trending_cap sample_env 7
           (lit "artificial-intelligence") 10 empty_world _
           (snd (fetch_github_trending sample_env 7
                   (lit "artificial-intelligence") 10 empty_world)));
    [vm_compute; reflexivity | discriminate].
Defined.

(** X15 at a quote that declares its language. *)
Lemma quote_of_fields_witness :
  exists pairs content,
    chinese_quote = PDict pairs /\
    PStr [23398%N; 32780%N; 19981%N; 21388%N] = PStr content /\
    PStr [23398%N; 32780%N; 19981%N; 21388%N]
    = match lookup (lit "content") pairs with
      | Some v => v
      | None => PStr []
      end /\
    PStr (lit "zh") = match lookup (lit "language") pairs with
                      | Some v => v
                      | None => PStr (detect_language content)
                      end /\
    PStr [23380%N; 23376%N] = match lookup (lit "author") pairs with
                              | Some v => v
                              | None => PStr [20314%N; 21517%N]
                              end.
Proof.
  apply (quote_of_fields sample_env chinese_quote
           (Quote (PStr [23398%N; 32780%N; 19981%N; 21388%N])
                  (PStr [23380%N; 23376%N]) (PStr (lit "zh")) [])
           empty_world empty_world).
  reflexivity.
Defined.

(** X16 at the same quote: no text is submitted for it. *)
Lemma quote_of_other_language_witness :
  quote_translation
    (Quote (PStr [23398%N; 32780%N; 19981%N; 21388%N])
           (PStr [23380%N; 23376%N]) (PStr (lit "zh")) [])
  = [] /\
  snd (quote_of sample_env chinese_quote empty_world) = empty_world.
Proof.
  apply (quote_of_other_language sample_env chinese_quote
           (Quote (PStr [23398%N; 32780%N; 19981%N; 21388%N])
                  (PStr [23380%N; 23376%N]) (PStr (lit "zh")) [])
           empty_world
           (snd (quote_of sample_env chinese_quote empty_world)));
    reflexivity.
Defined.

(** X17 at a file of three quotes whose second has a number as content. *)
Lemma load_quotes_stops_at_bad_content_witness :
  len (returned []
         (load_quotes (quotes_env [chinese_quote; numeric_quote;
                                   chinese_quote]) empty_world))
  <= len [chinese_quote].
Proof.
  apply (load_quotes_stops_at_bad_content
           (quotes_env [chinese_quote; numeric_quote; chinese_quote])
           [chinese_quote]
           [(lit "content", PInt 42); (lit "language", PStr (lit "zh"))]
           (PInt 42) [chinese_quote] empty_world _
           (snd (load_quotes (quotes_env [chinese_quote; numeric_quote;
                                          chinese_quote]) empty_world))).
  - reflexivity.
  - reflexivity.
  - discriminate.
  - vm_compute. reflexivity.
Defined.


(** X19 at the sample feed. *)
Lemma fetch_arxiv_papers_entries_witness :
  Forall2 (fun entry p =>
             paper_title_en p = ar_title entry /\
             paper_url p = ar_entry_id entry /\
             paper_published p = ar_published entry /\
             paper_categories p = ar_categories entry /\
             paper_authors p = firstn 3 (ar_authors entry) /\
             paper_abstract_en p
             = map (fun c => if N.eqb 10 c then 32%N else c)
                   (ar_summary entry))
          (fst (arxiv_results sample_env (arxiv_query None) 3))
          (returned [] (fetch_arxiv_papers sample_env None 3 empty_world)).
Proof.
  apply (fetch_arxiv_papers_entries sample_env None 3 empty_world _
           (snd (fetch_arxiv_papers sample_env None 3 empty_world))).
  vm_compute. reflexivity.
Defined.

(** X20 at a directory of one song of two lines. *)
Lemma load_lyrics_lines_witness :
  Forall (fun l =>
            join [10%N] (lyric_lines l) = lyric_content l /\
            Forall (fun line => ~ In 10%N line) (lyric_lines l))
         (returned [] (load_lyrics (quotes_env []) empty_world)).
Proof.
  apply (load_lyrics_lines (quotes_env []) empty_world _
           (snd (load_lyrics (quotes_env []) empty_world))).
  vm_compute. reflexivity.
Defined.

(** X22 at a site whose Kindle template is missing: the web page is
    written all the same. *)
Lemma render_templates_pages_witness :
  let c := completed_context kindle_missing_env (lit "body{margin:0}", [])
                             empty_context in
  exists s',
    render_templates kindle_missing_env (empty_site, empty_world)
    = (Ret tt, (s', empty_world)) /\
    site_context s' = c /\
    site_written s'
    = site_written empty_site
      ++ page_written kindle_missing_env (lit "kindle.html")
                      (lit "kindle.html") c
      ++ page_written kindle_missing_env (lit "web.html")
                      (lit "index.html") c.
Proof.
  apply (render_templates_pages kindle_missing_env empty_site empty_world
           (lit "body{margin:0}", [])).
  reflexivity.
Defined.

(** X23 at a site whose output directory cannot be made. *)
Lemma render_templates_unguarded_witness :
  exists s',
    render_templates no_dist_env (empty_site, empty_world)
    = (Raise (OtherException (lit "PermissionError")), (s', empty_world)) /\
    site_written s' = site_written empty_site /\
    site_console s' = site_console empty_site.
Proof.
  apply render_templates_unguarded. reflexivity.
Defined.

(** X24 at the sample environment with the Kindle template missing. *)
Lemma main_completes_witness :
  exists s' w',
    main sample_env kindle_missing_env (empty_site, empty_world)
    = (Ret tt, (s', w')) /\
    site_written s'
    = [(lit "index.html", lit "<html>web.html</html>")].
Proof.
  destruct (main_completes sample_env kindle_missing_env empty_site
              empty_world (lit "body{margin:0}", []) eq_refl)
    as (papers & w1 & repos & w2 & models & w3 & quotes & w4 & lyrics & w5
        & words & w6 & s' & _ & _ & _ & _ & _ & _ & Hmain & _ & Hwritten).
  exists s', w6. split; [exact Hmain | exact Hwritten].
Defined.

(** X25 at the sample environment with no output directory. *)
Lemma main_aborts_witness :
  exists s',
    main sample_env no_dist_env (empty_site, empty_world)
    = (Raise (OtherException (lit "PermissionError")),
       (s', after_sources sample_env empty_world)) /\
    site_written s' = site_written empty_site /\
    site_console s' = site_console empty_site ++ opening_lines.
Proof.
  apply main_aborts. reflexivity.
Defined.
